(** * CustomMCPTools: the mail relay tool and the database question tool

    A shallow embedding of [tools/EmailService/mcp_server_email.py] and
    [tools/QueryDatabase/database_agent.py], and the properties of their
    specification.

    Both tools are straight-line Python: they read the process environment,
    call library objects that talk to the outside (an SMTP session, a
    database, a hosted language model), and turn every exception into text.
    The embedding therefore has three layers:

    - [Py]: the Python values and control flow the tools use: [str],
      exceptions, the truth value of an optional string, and a monad [M] of
      computations that may raise, that change the outside world and that
      record every call they make to it;
    - [Json]: [json.dumps] on the flat dictionaries the database tool builds,
      with the reader a caller of the tool applies to the returned text;
    - [EmailService] and [DatabaseAgent]: the two tools, line by line. *)

From stdpp Require Import base option list strings gmap pretty.
From Stdlib Require Import Ascii ZArith Lia.

Local Open Scope list_scope.

(** ** Python values and control flow *)

Module Py.

(** A Python [str] is modelled by the Standard Library's [string]; its
    characters are the code points below 256. *)

(** The characters that cannot be written inside a literal. *)
Definition dquote : string := String "034"%char EmptyString.
Definition squote : string := String "039"%char EmptyString.
Definition newline : string := String "010"%char EmptyString.

(** An exception object, as far as the tools look at it: both handlers
    catch [Exception] and only use [str(e)].  [exc_class] is the name of
    the class, [exc_str] the text [str(e)] gives.  The values of this type
    are the instances of [Exception]; what is only a [BaseException] (an
    interrupt from the keyboard, the exit of the interpreter) is not a
    failure of a call and is outside the model. *)
Record exception : Type := Exception
  { exc_class : string;
    exc_str : string }.

(** [ValueError(msg)]: [str] of it is the message. *)
Definition ValueError (msg : string) : exception :=
  {| exc_class := "ValueError"; exc_str := msg |}.

(** [KeyError(key)] for a string key: [str] of it is the [repr] of the
    key, which for the key used here is the key between single quotes. *)
Definition KeyError (key : string) : exception :=
  {| exc_class := "KeyError"; exc_str := squote +:+ key +:+ squote |}.

(** What evaluating an expression or a block ends in. *)
Inductive outcome (A : Type) : Type :=
| Returns (a : A)
| Raises (e : exception).
Arguments Returns {A} a.
Arguments Raises {A} e.

Definition raised {A : Type} (r : outcome A) : option exception :=
  match r with
  | Returns _ => None
  | Raises e => Some e
  end.

(** [not x] for [x : Optional[str]]: [None] and the empty string are
    false, every other string is true. *)
Definition truthy (x : option string) : bool :=
  match x with
  | None => false
  | Some s => negb (String.eqb s "")
  end.

(** [x is None or x == ""], the two ways a credential can be missing. *)
Definition absent_or_empty (x : option string) : Prop :=
  x = None \/ x = Some EmptyString.

(** [sub in s] on strings. *)
Fixpoint contains (s sub : string) : bool :=
  String.prefix sub s
  || match s with
     | EmptyString => false
     | String _ rest => contains rest sub
     end.

Section Computations.
(** [W] is the state of everything outside the process (the mail relay,
    the database, the model provider); [C] names the calls a tool makes
    to it. *)
Context {W C : Type}.

(** One call to the outside, with the exception it raised, if any. *)
Record event : Type := Ev
  { ev_call : C;
    ev_raised : option exception }.

(** A computation starts in a world and ends in an outcome, a world and
    the calls it made, oldest first. *)
Definition M (A : Type) : Type := W -> outcome A * W * list event.

Definition ret {A : Type} (a : A) : M A :=
  fun w => (Returns a, w, []).

Definition raise {A : Type} (e : exception) : M A :=
  fun w => (Raises e, w, []).

Definition bind {A B : Type} (m : M A) (k : A -> M B) : M B :=
  fun w =>
    match m w with
    | (Returns a, w1, t1) =>
        match k a w1 with
        | (r, w2, t2) => (r, w2, t1 ++ t2)
        end
    | (Raises e, w1, t1) => (Raises e, w1, t1)
    end.

(** [try: body except Exception as e: handler(e)]. *)
Definition try_except {A : Type} (body : M A) (handler : exception -> M A)
  : M A :=
  fun w =>
    match body w with
    | (Returns a, w1, t1) => (Returns a, w1, t1)
    | (Raises e, w1, t1) =>
        match handler e w1 with
        | (r, w2, t2) => (r, w2, t1 ++ t2)
        end
    end.

(** A call [c] to the outside, whose behaviour there is [f]. *)
Definition extern {A : Type} (c : C) (f : W -> outcome A * W) : M A :=
  fun w =>
    match f w with
    | (r, w1) => (r, w1, [Ev c (raised r)])
    end.

(** [with ctor as x: body]: [__enter__] of the objects used here returns
    the object itself; [__exit__] runs when the block is left, also when
    it is left by an exception.  An [__exit__] that returns normally
    (here always with a false value) lets the exception of the block
    through; an [__exit__] that raises replaces it. *)
Definition with_as {S A : Type} (ctor : M S) (exit : S -> M unit)
    (body : S -> M A) : M A :=
  bind ctor (fun x =>
    fun w =>
      match body x w with
      | (Returns a, w1, t1) =>
          match exit x w1 with
          | (Returns _, w2, t2) => (Returns a, w2, t1 ++ t2)
          | (Raises e', w2, t2) => (Raises e', w2, t1 ++ t2)
          end
      | (Raises e, w1, t1) =>
          match exit x w1 with
          | (Returns _, w2, t2) => (Raises e, w2, t1 ++ t2)
          | (Raises e', w2, t2) => (Raises e', w2, t1 ++ t2)
          end
      end).

(** The parts of a finished computation. *)
Definition result_of {A : Type} (x : outcome A * W * list event)
  : outcome A := x.1.1.
Definition world_of {A : Type} (x : outcome A * W * list event) : W :=
  x.1.2.
Definition events_of {A : Type} (x : outcome A * W * list event)
  : list event := x.2.
Definition calls_of {A : Type} (x : outcome A * W * list event)
  : list C := map ev_call x.2.
End Computations.

Arguments event : clear implicits.
Arguments M : clear implicits.

(** [d[key]] on a [dict] with string keys. *)
Definition getitem {W C V : Type} (d : gmap string V) (key : string)
  : M W C V :=
  match d !! key with
  | Some v => ret v
  | None => raise (KeyError key)
  end.

(** [d.update(u)]: the entries of [u] win. *)
Definition update {V : Type} (d u : gmap string V) : gmap string V :=
  u ∪ d.

End Py.

Export Py.

Declare Scope py_scope.
Delimit Scope py_scope with py.
Notation "'let*' x ':=' m 'in' k" := (bind m (fun x => k))
  (at level 10, x name, m at level 100, k at level 200, only parsing)
  : py_scope.

Local Open Scope py_scope.

(** ** [json.dumps] on flat dictionaries *)

Module Json.

(** The values the database tool puts in its answer: [None] and [str]. *)
Inductive value : Type :=
| Null
| Str (s : string).

(** A dictionary literal keeps the order of its keys. *)
Definition object : Type := list (string * value).

(** [d.get(key)] on the decoded object. *)
Fixpoint get (d : object) (key : string) : option value :=
  match d with
  | [] => None
  | (k, v) :: rest => if String.eqb k key then Some v else get rest key
  end.

(** One lower-case hexadecimal digit, as ['{0:04x}'.format] writes it. *)
Definition hex_digit (n : nat) : ascii :=
  ascii_of_nat (if n <? 10 then 48 + n else 87 + n).

(** The encoder of [json.dumps] with [ensure_ascii=True], its default:
    the backslash, the double quote and everything outside the range from
    the space to the tilde are escaped, five control characters by their
    short escape and the others by [\u00xx]. *)
Definition escape_char (c : ascii) : string :=
  let n := nat_of_ascii c in
  if n =? 34 then "\" +:+ dquote
  else if n =? 92 then "\\"
  else if n =? 10 then "\n"
  else if n =? 13 then "\r"
  else if n =? 9 then "\t"
  else if n =? 8 then "\b"
  else if n =? 12 then "\f"
  else if (32 <=? n) && (n <=? 126) then String c EmptyString
  else "\u00" +:+ String (hex_digit (n / 16))
                    (String (hex_digit (n mod 16)) EmptyString).

Fixpoint escape (s : string) : string :=
  match s with
  | EmptyString => EmptyString
  | String c rest => escape_char c +:+ escape rest
  end.

Definition dumps_value (v : value) : string :=
  match v with
  | Null => "null"
  | Str s => dquote +:+ escape s +:+ dquote
  end.

Definition dumps_item (kv : string * value) : string :=
  dquote +:+ escape kv.1 +:+ dquote +:+ ": " +:+ dumps_value kv.2.

(** Items are separated by a comma and a space, the default separators. *)
Fixpoint dumps_items (d : object) : string :=
  match d with
  | [] => EmptyString
  | [kv] => dumps_item kv
  | kv :: rest => dumps_item kv +:+ ", " +:+ dumps_items rest
  end.

Definition dumps (d : object) : string :=
  "{" +:+ dumps_items d +:+ "}".

(** *** The reader of the caller

    The tool hands its answer over as text; to speak of the fields of
    the returned JSON the text has to be read back.  [loads] reads an
    object whose values are strings or [null], with white space allowed
    between the tokens, as [json.loads] does. *)

Definition hex_val (c : ascii) : option nat :=
  let n := nat_of_ascii c in
  if (48 <=? n) && (n <=? 57) then Some (n - 48)
  else if (97 <=? n) && (n <=? 102) then Some (n - 87)
  else if (65 <=? n) && (n <=? 70) then Some (n - 55)
  else None.

(** The four digits of a [\u] escape, for the code points of the model. *)
Definition unicode_escape (h1 h2 h3 h4 : ascii) : option ascii :=
  a ← hex_val h1; b ← hex_val h2; c ← hex_val h3; d ← hex_val h4;
  if (a =? 0) && (b =? 0) then Some (ascii_of_nat (16 * c + d)) else None.

(** The character a short escape stands for. *)
Definition short_escape (e : ascii) : option ascii :=
  let n := nat_of_ascii e in
  if n =? 34 then Some "034"%char
  else if n =? 92 then Some "092"%char
  else if n =? 47 then Some "047"%char
  else if n =? 98 then Some "008"%char
  else if n =? 102 then Some "012"%char
  else if n =? 110 then Some "010"%char
  else if n =? 114 then Some "013"%char
  else if n =? 116 then Some "009"%char
  else None.

(** Reads a string from just after its opening quote: the text it denotes
    and what follows its closing quote. *)
Fixpoint read_string (s : string) : option (string * string) :=
  match s with
  | EmptyString => None
  | String c r =>
      let n := nat_of_ascii c in
      if n =? 34 then Some (EmptyString, r)
      else if n =? 92 then
        match r with
        | EmptyString => None
        | String e r1 =>
            if nat_of_ascii e =? 117 then
              match r1 with
              | String h1 (String h2 (String h3 (String h4 r2))) =>
                  x ← unicode_escape h1 h2 h3 h4;
                  p ← read_string r2;
                  Some (String x p.1, p.2)
              | _ => None
              end
            else
              x ← short_escape e;
              p ← read_string r1;
              Some (String x p.1, p.2)
        end
      else if n <? 32 then None
      else p ← read_string r; Some (String c p.1, p.2)
  end.

Definition is_space (c : ascii) : bool :=
  let n := nat_of_ascii c in
  (n =? 32) || (n =? 9) || (n =? 10) || (n =? 13).

Fixpoint skip_ws (s : string) : string :=
  match s with
  | EmptyString => EmptyString
  | String c r => if is_space c then skip_ws r else s
  end.

Definition read_value (s : string) : option (value * string) :=
  match s with
  | EmptyString => None
  | String c r =>
      if nat_of_ascii c =? 34 then
        p ← read_string r; Some (Str p.1, p.2)
      else
        match r with
        | String c2 (String c3 (String c4 r')) =>
            if (nat_of_ascii c =? 110) && (nat_of_ascii c2 =? 117)
               && (nat_of_ascii c3 =? 108) && (nat_of_ascii c4 =? 108)
            then Some (Null, r') else None
        | _ => None
        end
  end.

(** The members of an object, from its first key to its closing brace. *)
Fixpoint read_members (fuel : nat) (s : string) : option (object * string) :=
  match fuel with
  | O => None
  | S fuel' =>
      match skip_ws s with
      | String c r =>
          if nat_of_ascii c =? 34 then
            k ← read_string r;
            match skip_ws k.2 with
            | String colon r1 =>
                if nat_of_ascii colon =? 58 then
                  v ← read_value (skip_ws r1);
                  match skip_ws v.2 with
                  | String sep r2 =>
                      if nat_of_ascii sep =? 44 then
                        m ← read_members fuel' r2;
                        Some ((k.1, v.1) :: m.1, m.2)
                      else if nat_of_ascii sep =? 125 then
                        Some ([(k.1, v.1)], r2)
                      else None
                  | EmptyString => None
                  end
                else None
            | EmptyString => None
            end
          else None
      | EmptyString => None
      end
  end.

Definition loads (s : string) : option object :=
  match skip_ws s with
  | String c r =>
      if nat_of_ascii c =? 123 then
        match skip_ws r with
        | String c1 r1 =>
            if nat_of_ascii c1 =? 125 then
              match skip_ws r1 with
              | EmptyString => Some []
              | _ => None
              end
            else
              m ← read_members (String.length s) r;
              match skip_ws m.2 with
              | EmptyString => Some m.1
              | _ => None
              end
        | EmptyString => None
        end
      else None
  | EmptyString => None
  end.

(** The field [key] of the object a text denotes. *)
Definition field (text key : string) : option value :=
  d ← loads text; get d key.

(** Every character of the text is printable ASCII, from the space to the
    tilde: no control character, no line break, nothing above 126. *)
Fixpoint all_printable (s : string) : bool :=
  match s with
  | EmptyString => true
  | String c rest =>
      (32 <=? nat_of_ascii c) && (nat_of_ascii c <=? 126)
      && all_printable rest
  end.

End Json.

(** ** [tools/EmailService/mcp_server_email.py] *)

Module EmailService.

(** *** [email.mime.text.MIMEText], as far as the tool uses it *)

(** A message is its list of headers, in the order they were added, and
    its text.  (The library keeps the text in the transfer encoding the
    header names; the model keeps the text itself.) *)
Record Message : Type := mkMessage
  { headers : list (string * string);
    payload : string }.

Fixpoint is_ascii (s : string) : bool :=
  match s with
  | EmptyString => true
  | String c rest => (nat_of_ascii c <? 128) && is_ascii rest
  end.

(** [MIMEText(text)]: the character set is [us-ascii] when the text encodes
    in it and [utf-8] otherwise; three headers are set. *)
Definition MIMEText (text : string) : Message :=
  let charset := if is_ascii text then "us-ascii" else "utf-8" in
  {| headers :=
       [("Content-Type",
         "text/plain; charset=" +:+ dquote +:+ charset +:+ dquote);
        ("MIME-Version", "1.0");
        ("Content-Transfer-Encoding",
         if is_ascii text then "7bit" else "base64")];
     payload := text |}.

(** [msg[name] = val] appends a header; it never replaces one. *)
Definition setitem (msg : Message) (name val : string) : Message :=
  {| headers := headers msg ++ [(name, val)];
     payload := payload msg |}.




(** *** [smtplib.SMTP], the transport *)

(** The calls the tool makes to the mail relay. *)
Inductive call : Type :=
| SMTP (host : string) (port : Z)    (* [smtplib.SMTP(host, port)]: connects *)
| starttls
| login (user password : string)
| send_message (msg : Message)
| SMTP_exit.                         (* [__exit__]: QUIT, then close *)

(** The behaviour of the transport: each call may return or raise, and
    changes the world.  The values [starttls], [login] and [send_message]
    return are not used by the tool. *)
Record smtplib (W : Type) : Type := mkSmtplib
  { session : Type;
    smtp_SMTP : string -> Z -> W -> outcome session * W;
    smtp_starttls : session -> W -> outcome unit * W;
    smtp_login : session -> string -> string -> W -> outcome unit * W;
    smtp_send_message : session -> Message -> W -> outcome unit * W;
    smtp_exit : session -> W -> outcome unit * W }.
Arguments session {W} _.
Arguments smtp_SMTP {W} _ _ _ _.
Arguments smtp_starttls {W} _ _ _.
Arguments smtp_login {W} _ _ _ _ _.
Arguments smtp_send_message {W} _ _ _ _.
Arguments smtp_exit {W} _ _ _.

(** The string of an [Optional[str]] that was tested to be true. *)
Definition the (x : option string) : string := default EmptyString x.

Section Tool.
Context {W : Type}.
(** The transport, and [os.environ]. *)
Variable lib : smtplib W.
Variable environ : gmap string string.

(** Lines 42 to 45: the message the tool builds. *)
Definition build_message (smtp_user to_email subject body : string)
  : Message :=
  let msg := MIMEText body in
  let msg := setitem msg "Subject" subject in
  let msg := setitem msg "From" smtp_user in
  let msg := setitem msg "To" to_email in
  msg.

(** Lines 48 to 51: the session with the relay. *)
Definition deliver (smtp_server : string) (smtp_port : Z)
    (smtp_user smtp_password : string) (msg : Message) : M W call unit :=
  with_as
    (extern (SMTP smtp_server smtp_port) (smtp_SMTP lib smtp_server smtp_port))
    (fun server => extern SMTP_exit (smtp_exit lib server))
    (fun server =>
       let* _ := extern starttls (smtp_starttls lib server) in
       let* _ := extern (login smtp_user smtp_password)
                   (smtp_login lib server smtp_user smtp_password) in
       extern (send_message msg) (smtp_send_message lib server msg)).

Definition send_email (to_email subject body : string) : M W call string :=
  try_except
    (let smtp_server := "smtp.gmail.com" in
     let smtp_port := 587%Z in
     let smtp_user := environ !! "SMTP_USER" in
     let smtp_password := environ !! "SMTP_PASSWORD" in
     if negb (truthy smtp_user) || negb (truthy smtp_password) then
       raise (ValueError
         "SMTP_USER and SMTP_PASSWORD environment variables are required")
     else
       let msg :=
         build_message (the smtp_user) to_email subject body in
       let* _ := deliver smtp_server smtp_port (the smtp_user)
                   (the smtp_password) msg in
       ret ("Email successfully sent to " +:+ to_email
              +:+ " with subject: " +:+ subject))
    (fun e => ret ("Error sending email: " +:+ exc_str e)).

End Tool.

(** The messages a run handed to the transport. *)
Definition sent_messages (cs : list call) : list Message :=
  omap (fun c => match c with send_message m => Some m | _ => None end) cs.

(** The stages of the session: everything but leaving the [with] block. *)
Definition is_stage (c : call) : bool :=
  match c with
  | SMTP_exit => false
  | _ => true
  end.

(** *** Transports to run the tool against *)

(** A relay that accepts everything; its world counts the calls. *)
Definition accepting_relay : smtplib nat :=
  {| session := unit;
     smtp_SMTP := fun _ _ w => (Returns tt, S w);
     smtp_starttls := fun _ w => (Returns tt, S w);
     smtp_login := fun _ _ _ w => (Returns tt, S w);
     smtp_send_message := fun _ _ w => (Returns tt, S w);
     smtp_exit := fun _ w => (Returns tt, S w) |}.

Definition SMTPAuthenticationError : exception :=
  {| exc_class := "SMTPAuthenticationError";
     exc_str := "(535, b'5.7.8 Username and Password not accepted')" |}.

Definition SMTPResponseException : exception :=
  {| exc_class := "SMTPResponseException";
     exc_str := "(421, b'4.7.0 Try again later, closing connection')" |}.

(** A relay that rejects the login and then answers QUIT with a code
    other than 221, which makes [__exit__] raise. *)
Definition rejecting_relay : smtplib nat :=
  {| session := unit;
     smtp_SMTP := fun _ _ w => (Returns tt, S w);
     smtp_starttls := fun _ w => (Returns tt, S w);
     smtp_login := fun _ _ _ w => (Raises SMTPAuthenticationError, S w);
     smtp_send_message := fun _ _ w => (Returns tt, S w);
     smtp_exit := fun _ w => (Raises SMTPResponseException, S w) |}.

Definition credentials : gmap string string :=
  {[ "SMTP_USER" := "relay@example.com"; "SMTP_PASSWORD" := "app-password" ]}.

Definition only_user : gmap string string :=
  {[ "SMTP_USER" := "relay@example.com" ]}.

(** A relay that accepts the message and then answers QUIT with a code
    other than 221. *)
Definition closing_failure_relay : smtplib nat :=
  {| session := unit;
     smtp_SMTP := fun _ _ w => (Returns tt, S w);
     smtp_starttls := fun _ w => (Returns tt, S w);
     smtp_login := fun _ _ _ w => (Returns tt, S w);
     smtp_send_message := fun _ _ w => (Returns tt, S w);
     smtp_exit := fun _ w => (Raises SMTPResponseException, S w) |}.

(** A relay that rejects the login and closes the session normally. *)
Definition rejecting_login_relay : smtplib nat :=
  {| session := unit;
     smtp_SMTP := fun _ _ w => (Returns tt, S w);
     smtp_starttls := fun _ w => (Returns tt, S w);
     smtp_login := fun _ _ _ w => (Raises SMTPAuthenticationError, S w);
     smtp_send_message := fun _ _ w => (Returns tt, S w);
     smtp_exit := fun _ w => (Returns tt, S w) |}.

End EmailService.

(** ** [tools/QueryDatabase/database_agent.py] *)

Module DatabaseAgent.

(** [State] is a [TypedDict]: at run time a plain [dict] with the keys
    [question], [query], [result] and [answer], all strings.
    [QueryOutput] is a [dict] with the key [query]. *)
Abbreviation State := (gmap string string).
Abbreviation QueryOutput := (gmap string string).

(** The chat prompt handed to the model: the messages with their roles. *)
Definition PromptValue : Type := list (string * string).

(** The answer of the chat model; the tool reads its [content]. *)
Record AIMessage : Type := mkAIMessage
  { content : string }.

(** [ChatOpenAI(model=..., api_key=...)] holds its settings; building it
    contacts nobody. *)
Record ChatOpenAI : Type := mkChatOpenAI
  { model : string;
    api_key : string }.

(** The calls the tool makes to the database and to the model. *)
Inductive call : Type :=
| SQLDatabase_from_uri (uri : string)
| db_get_table_info
| structured_llm_invoke (prompt : PromptValue)
| execute_query_tool_invoke (query : string)
| llm_invoke (prompt : string).

(** The second invocation of the model, the one of the answer stage. *)
Definition is_answer_call (c : call) : bool :=
  match c with
  | llm_invoke _ => true
  | _ => false
  end.

(** The behaviour of the libraries: each call may return or raise, and
    changes the world. *)
Record langchain (W : Type) : Type := mkLangchain
  { SQLDatabase : Type;
    from_uri : string -> W -> outcome SQLDatabase * W;
    dialect : SQLDatabase -> string;
    get_table_info : SQLDatabase -> W -> outcome string * W;
    structured_invoke :
      ChatOpenAI -> PromptValue -> W -> outcome (gmap string string) * W;
    tool_invoke : SQLDatabase -> string -> W -> outcome string * W;
    invoke : ChatOpenAI -> string -> W -> outcome AIMessage * W }.
Arguments SQLDatabase {W} _.
Arguments from_uri {W} _ _ _.
Arguments dialect {W} _ _.
Arguments get_table_info {W} _ _ _.
Arguments structured_invoke {W} _ _ _ _.
Arguments tool_invoke {W} _ _ _ _.
Arguments invoke {W} _ _ _ _.

Definition the (x : option string) : string := default EmptyString x.

(** Lines 63 to 85, with [invoke] of the template: the placeholders of the
    system message and of the user message are filled in. *)
Definition system_message (dialect top_k table_info : string) : string :=
"
        Given an input question, create a syntactically correct "
  +:+ dialect
  +:+ " query to
        run to help find the answer. Unless the user specifies in his question a
        specific number of examples they wish to obtain, always limit your query to
        at most "
  +:+ top_k
  +:+ " results. You can order the results by a relevant column to
        return the most interesting examples in the database.

        Never query for all the columns from a specific table, only ask for a the
        few relevant columns given the question.

        Pay attention to use only the column names that you can see in the schema
        description. Be careful to not query for columns that do not exist. Also,
        pay attention to which column is in which table.

        Only use the following tables:
        "
  +:+ table_info
  +:+ "
        ".

Definition user_prompt (input : string) : string :=
  "Question: " +:+ input.

Definition query_prompt_template (dialect : string) (top_k : Z)
    (table_info input : string) : PromptValue :=
  [("system", system_message dialect (pretty top_k) table_info);
   ("user", user_prompt input)].

Section Tool.
Context {W : Type}.
(** The libraries, and [os.environ]. *)
Variable lib : langchain W.
Variable environ : gmap string string.

Section Stages.
(** The objects the three stages close over. *)
Variable db : SQLDatabase lib.
Variable llm : ChatOpenAI.

Definition write_query (state : State) : M W call QueryOutput :=
  let* table_info := extern db_get_table_info (get_table_info lib db) in
  let* question := getitem state "question" in
  let prompt :=
    query_prompt_template (dialect lib db) 10 table_info question in
  (* structured_llm = llm.with_structured_output(QueryOutput) *)
  let* result :=
    extern (structured_llm_invoke prompt) (structured_invoke lib llm prompt) in
  let* query := getitem result "query" in
  ret {[ "query" := query ]}.

Definition execute_query (state : State) : M W call (gmap string string) :=
  (* execute_query_tool = QuerySQLDatabaseTool(db=db) *)
  let* query := getitem state "query" in
  let* result :=
    extern (execute_query_tool_invoke query) (tool_invoke lib db query) in
  ret {[ "result" := result ]}.

Definition answer_prompt (question query result : string) : string :=
  "Given the following user question, corresponding SQL query, "
  +:+ "and SQL result, answer the user question." +:+ newline +:+ newline
  +:+ "Question: " +:+ question +:+ newline
  +:+ "SQL Query: " +:+ query +:+ newline
  +:+ "SQL Result: " +:+ result.

Definition generate_answer (state : State) : M W call (gmap string string) :=
  let* question := getitem state "question" in
  let* query := getitem state "query" in
  let* result := getitem state "result" in
  let prompt := answer_prompt question query result in
  let* response := extern (llm_invoke prompt) (invoke lib llm prompt) in
  ret {[ "answer" := content response ]}.

(** [state.update(stage(state))]. *)
Definition state_update (stage : State -> M W call (gmap string string))
    (state : State) : M W call State :=
  let* u := stage state in
  ret (update state u).

(** Line 122. *)
Definition initial_state (question : string) : State :=
  {[ "question" := question; "query" := EmptyString;
     "result" := EmptyString; "answer" := EmptyString ]}.

(** Lines 122 to 131: the three stages, one after the other. *)
Definition workflow (question : string) : M W call State :=
  let state := initial_state question in
  let* state := state_update write_query state in
  let* state := state_update execute_query state in
  let* state := state_update generate_answer state in
  ret state.

End Stages.

(** The two dictionaries the tool serialises. *)
Definition success_response (answer query result : string) : Json.object :=
  [("answer", Json.Str answer); ("query", Json.Str query);
   ("result", Json.Str result); ("error", Json.Null)].

Definition error_response (e : exception) : Json.object :=
  [("answer", Json.Str EmptyString); ("query", Json.Str EmptyString);
   ("result", Json.Str EmptyString);
   ("error", Json.Str ("Error: " +:+ exc_str e))].

(** Lines 50 to 139: the body of the [try]. *)
Definition database_agent_body (question : string) : M W call string :=
  if negb (truthy (environ !! "OPENAI_API_KEY")) then
    raise (ValueError "OPENAI_API_KEY environment variable is required")
  else if negb (truthy (environ !! "POSTGRESQL_URL")) then
    raise (ValueError "POSTGRESQL_URL environment variable is required")
  else
    let uri := the (environ !! "POSTGRESQL_URL") in
    let* db := extern (SQLDatabase_from_uri uri) (from_uri lib uri) in
    let llm :=
      {| model := "gpt-4o-mini";
         api_key := the (environ !! "OPENAI_API_KEY") |} in
    let* state := workflow db llm question in
    let* answer := getitem state "answer" in
    let* query := getitem state "query" in
    let* result := getitem state "result" in
    ret (Json.dumps (success_response answer query result)).

Definition database_agent (question : string) : M W call string :=
  try_except
    (database_agent_body question)
    (fun e => ret (Json.dumps (error_response e))).

End Tool.

(** *** Reading the answer of the tool *)

(** A field that holds a non-empty string. *)
Definition populated (v : option Json.value) : bool :=
  match v with
  | Some (Json.Str s) => negb (String.eqb s EmptyString)
  | _ => false
  end.

(** A field that holds the empty string. *)
Definition empty (v : option Json.value) : bool :=
  match v with
  | Some (Json.Str s) => String.eqb s EmptyString
  | _ => false
  end.

(** A field that holds [null] or the empty string. *)
Definition null_or_empty (v : option Json.value) : bool :=
  match v with
  | Some Json.Null => true
  | Some (Json.Str s) => String.eqb s EmptyString
  | None => false
  end.

(** The shape the specification gives to every answer of the tool: the
    three content fields populated and no error, or the three content
    fields empty and an error. *)
Definition all_or_nothing (text : string) : bool :=
  (populated (Json.field text "answer")
   && populated (Json.field text "query")
   && populated (Json.field text "result")
   && null_or_empty (Json.field text "error"))
  || (empty (Json.field text "answer")
      && empty (Json.field text "query")
      && empty (Json.field text "result")
      && populated (Json.field text "error")).

(** The answer the handler builds for the exception [e], read back: the
    three content fields are empty strings and the error field is the
    non-empty text that ends in [str(e)]. *)
Definition error_answer (text : string) (e : exception) : Prop :=
  Json.field text "answer" = Some (Json.Str EmptyString)
  /\ Json.field text "query" = Some (Json.Str EmptyString)
  /\ Json.field text "result" = Some (Json.Str EmptyString)
  /\ Json.field text "error" = Some (Json.Str ("Error: " +:+ exc_str e))
  /\ populated (Json.field text "error") = true
  /\ contains ("Error: " +:+ exc_str e) (exc_str e) = true.

(** The answer of a run that went through, read back. *)
Definition success_answer (text answer query result : string) : Prop :=
  Json.field text "answer" = Some (Json.Str answer)
  /\ Json.field text "query" = Some (Json.Str query)
  /\ Json.field text "result" = Some (Json.Str result)
  /\ Json.field text "error" = Some Json.Null.


(** The external responses do not depend on the state of the world: the
    database is unchanged by the calls and the model is a deterministic
    stub. *)
Definition deterministic {W : Type} (lib : langchain W) : Prop :=
  (forall uri w w', (from_uri lib uri w).1 = (from_uri lib uri w').1)
  /\ (forall db w w',
        (get_table_info lib db w).1 = (get_table_info lib db w').1)
  /\ (forall llm prompt w w',
        (structured_invoke lib llm prompt w).1
        = (structured_invoke lib llm prompt w').1)
  /\ (forall db query w w',
        (tool_invoke lib db query w).1 = (tool_invoke lib db query w').1)
  /\ (forall llm prompt w w',
        (invoke lib llm prompt w).1 = (invoke lib llm prompt w').1).

(** *** Libraries to run the tool against *)

(** A model stub that answers the first prompt with [query] and the
    second with [answer], and a database stub whose tool returns [result];
    the world counts the calls. *)
Definition stub (query result answer : string) : langchain nat :=
  {| SQLDatabase := unit;
     from_uri := fun _ w => (Returns tt, S w);
     dialect := fun _ => "postgresql";
     get_table_info := fun _ w =>
       (Returns "CREATE TABLE users (id INTEGER, name TEXT)", S w);
     structured_invoke := fun _ _ w => (Returns {[ "query" := query ]}, S w);
     tool_invoke := fun _ _ w => (Returns result, S w);
     invoke := fun _ _ w => (Returns {| content := answer |}, S w) |}.

Definition UndefinedColumn : exception :=
  {| exc_class := "ProgrammingError";
     exc_str := "(psycopg2.errors.UndefinedColumn) column nmae does not exist" |}.

(** The same stubs, with a database that rejects the query. *)
Definition stub_invalid_column (query answer : string) : langchain nat :=
  {| SQLDatabase := unit;
     from_uri := fun _ w => (Returns tt, S w);
     dialect := fun _ => "postgresql";
     get_table_info := fun _ w =>
       (Returns "CREATE TABLE users (id INTEGER, name TEXT)", S w);
     structured_invoke := fun _ _ w => (Returns {[ "query" := query ]}, S w);
     tool_invoke := fun _ _ w => (Raises UndefinedColumn, S w);
     invoke := fun _ _ w => (Returns {| content := answer |}, S w) |}.

Definition configuration : gmap string string :=
  {[ "OPENAI_API_KEY" := "sk-test";
     "POSTGRESQL_URL" := "postgresql://localhost/app" ]}.

Definition no_connection_string : gmap string string :=
  {[ "OPENAI_API_KEY" := "sk-test" ]}.

(** A model stub whose structured output lacks the key [query]. *)
Definition stub_malformed_output : langchain nat :=
  {| SQLDatabase := unit;
     from_uri := fun _ w => (Returns tt, S w);
     dialect := fun _ => "postgresql";
     get_table_info := fun _ w =>
       (Returns "CREATE TABLE users (id INTEGER, name TEXT)", S w);
     structured_invoke := fun _ _ w => (Returns ∅, S w);
     tool_invoke := fun _ _ w => (Returns "[]", S w);
     invoke := fun _ _ w => (Returns {| content := "unused" |}, S w) |}.

(** An environment in which the credential of the model is set to the
    empty string. *)
Definition empty_api_key : gmap string string :=
  {[ "OPENAI_API_KEY" := EmptyString;
     "POSTGRESQL_URL" := "postgresql://localhost/app" ]}.

End DatabaseAgent.

(** * Properties *)

(** ** Strings *)

Lemma str_app_cons (x : ascii) (a b : string) :
  String x a +:+ b = String x (a +:+ b).
Proof. reflexivity. Qed.

Lemma str_app_assoc (a b c : string) : (a +:+ b) +:+ c = a +:+ (b +:+ c).
Proof.
  induction a as [|x a IH]; [reflexivity|].
  rewrite !str_app_cons. by f_equal.
Qed.

Lemma str_app_empty (a : string) : a +:+ EmptyString = a.
Proof.
  induction a as [|c a IH]; [reflexivity|].
  rewrite str_app_cons. by f_equal.
Qed.

Lemma str_length_app (a b : string) :
  String.length (a +:+ b) = String.length a + String.length b.
Proof.
  induction a as [|c a IH]; [reflexivity|].
  rewrite str_app_cons. cbn [String.length]. by rewrite IH.
Qed.

Lemma prefix_app (sub post : string) :
  String.prefix sub (sub +:+ post) = true.
Proof.
  induction sub as [|c sub IH]; [by destruct post|].
  rewrite str_app_cons. cbn [String.prefix].
  by destruct (ascii_dec c c).
Qed.

Lemma contains_unfold (s sub : string) :
  contains s sub
  = String.prefix sub s
    || match s with
       | EmptyString => false
       | String _ rest => contains rest sub
       end.
Proof. by destruct s. Qed.

(** A string contains each of the pieces it was put together from. *)
Lemma contains_app (pre sub post : string) :
  contains (pre +:+ sub +:+ post) sub = true.
Proof.
  induction pre as [|c pre IH].
  - change (EmptyString +:+ ?x) with x.
    by rewrite contains_unfold, prefix_app.
  - rewrite str_app_cons. cbn [contains]. rewrite IH. apply orb_true_r.
Qed.

Lemma contains_suffix (pre sub : string) :
  contains (pre +:+ sub) sub = true.
Proof.
  replace (pre +:+ sub) with (pre +:+ sub +:+ EmptyString)
    by (by rewrite str_app_empty).
  apply contains_app.
Qed.

Lemma truthy_false (x : option string) :
  truthy x = false <-> absent_or_empty x.
Proof.
  unfold absent_or_empty. destruct x as [s|]; cbn.
  - destruct s; cbn; split; intros H; try done; [by right | by destruct H].
  - split; [by left | done].
Qed.


(** ** What [json.dumps] writes, the reader reads back *)

Section JsonRoundTrip.
Import Json.

(** One character: the reader undoes each of the 256 escapes. *)
Lemma read_string_escape_char (c : ascii) (r : string) :
  read_string (escape_char c +:+ r)
  = p ← read_string r; Some (String c p.1, p.2).
Proof.
  destruct c as [[] [] [] [] [] [] [] []]; reflexivity.
Qed.

Lemma read_string_escape (s r : string) :
  read_string (escape s +:+ dquote +:+ r) = Some (s, r).
Proof.
  induction s as [|c s IH]; [reflexivity|].
  cbn [escape]. rewrite str_app_assoc, read_string_escape_char, IH.
  reflexivity.
Qed.

Lemma read_value_quote (x : string) :
  read_value (dquote +:+ x) = p ← read_string x; Some (Str p.1, p.2).
Proof. reflexivity. Qed.

Lemma read_value_dumps (v : value) (r : string) :
  read_value (dumps_value v +:+ r) = Some (v, r).
Proof.
  destruct v as [|s]; [reflexivity|].
  unfold dumps_value.
  by rewrite !str_app_assoc, read_value_quote, read_string_escape.
Qed.

Lemma skip_ws_quote (x : string) : skip_ws (dquote +:+ x) = dquote +:+ x.
Proof. reflexivity. Qed.

Lemma skip_ws_value (v : value) (r : string) :
  skip_ws (" " +:+ dumps_value v +:+ r) = dumps_value v +:+ r.
Proof. destruct v; reflexivity. Qed.

(** Reading one member: the key, the colon and the value. *)
Lemma read_members_item (fuel : nat) (k : string) (v : value) (r : string) :
  read_members (S fuel) (dumps_item (k, v) +:+ r)
  = match skip_ws r with
    | String sep r2 =>
        if nat_of_ascii sep =? 44 then
          m ← read_members fuel r2; Some ((k, v) :: m.1, m.2)
        else if nat_of_ascii sep =? 125 then Some ([(k, v)], r2)
        else None
    | EmptyString => None
    end.
Proof.
  unfold dumps_item. cbn [fst snd]. rewrite !str_app_assoc.
  cbn [read_members]. rewrite skip_ws_quote.
  change (dquote +:+ ?x) with (String "034"%char x).
  cbn beta iota. change (nat_of_ascii "034" =? 34) with true. cbn beta iota.
  rewrite read_string_escape. cbn [mbind option_bind fst snd].
  change (skip_ws (": " +:+ ?x)) with (String ":"%char (" " +:+ x)).
  cbn beta iota. change (nat_of_ascii ":" =? 58) with true. cbn beta iota.
  rewrite skip_ws_value, read_value_dumps. reflexivity.
Qed.

Lemma dumps_items_cons (kv kv' : string * value) (d : object) :
  dumps_items (kv :: kv' :: d)
  = dumps_item kv +:+ ", " +:+ dumps_items (kv' :: d).
Proof. reflexivity. Qed.

Lemma read_members_skip (fuel : nat) (s : string) :
  read_members fuel (" " +:+ s) = read_members fuel s.
Proof. destruct fuel; reflexivity. Qed.

Lemma read_members_dumps (d : object) (kv : string * value) (fuel : nat)
    (r : string) :
  length d < fuel ->
  read_members fuel (dumps_items (kv :: d) +:+ "}" +:+ r)
  = Some (kv :: d, r).
Proof.
  revert kv fuel.
  induction d as [|kv' d IH]; intros [k v] [|fuel] Hfuel;
    cbn [length] in Hfuel; try lia.
  - cbn [dumps_items]. rewrite read_members_item. reflexivity.
  - rewrite dumps_items_cons, !str_app_assoc, read_members_item.
    change (skip_ws (", " +:+ ?x)) with (String ","%char (" " +:+ x)).
    cbn beta iota. change (nat_of_ascii "," =? 44) with true. cbn beta iota.
    rewrite read_members_skip, IH by lia. reflexivity.
Qed.

(** The text is at least as long as the object has members, so the fuel
    [loads] starts with is enough. *)
Lemma length_dumps_items (d : object) :
  length d <= String.length (dumps_items d).
Proof.
  induction d as [|[k v] d IH]; [cbn; lia|].
  destruct d as [|kv' d].
  - cbn [dumps_items length]. unfold dumps_item.
    rewrite str_length_app. cbn. lia.
  - rewrite dumps_items_cons. unfold dumps_item at 1.
    rewrite !str_length_app. cbn [length] in *.
    cbn [String.length dquote]. lia.
Qed.

Lemma dumps_items_head (kv : string * value) (d : object) (r : string) :
  exists t : string, dumps_items (kv :: d) +:+ r = String "034"%char t.
Proof.
  destruct d as [|kv' d].
  - cbn [dumps_items]. unfold dumps_item. rewrite !str_app_assoc.
    by eexists.
  - rewrite dumps_items_cons. unfold dumps_item at 1.
    rewrite !str_app_assoc. by eexists.
Qed.

Lemma loads_dumps (d : object) : loads (dumps d) = Some d.
Proof.
  destruct d as [|kv d]; [reflexivity|].
  unfold dumps, loads.
  pose proof (length_dumps_items (kv :: d)) as Hlen.
  assert (Hfuel : length d
                  < String.length ("{" +:+ dumps_items (kv :: d) +:+ "}")).
  { rewrite !str_length_app. cbn [length] in Hlen. cbn [String.length]. lia. }
  pose proof (read_members_dumps d kv _ EmptyString Hfuel) as Hread.
  change ("}" +:+ EmptyString) with "}" in Hread.
  change (skip_ws ("{" +:+ ?x)) with (String "{"%char x).
  cbn beta iota. change (nat_of_ascii "{" =? 123) with true. cbn beta iota.
  rewrite Hread.
  destruct (dumps_items_head kv d "}") as [t ->].
  reflexivity.
Qed.

(** The fields of the returned text are those of the dictionary that was
    serialised. *)
Lemma field_dumps (d : object) (key : string) :
  field (dumps d) key = get d key.
Proof. unfold field. by rewrite loads_dumps. Qed.

End JsonRoundTrip.

(** ** The mail relay tool *)

Section Mail.
Import EmailService.
Context {W : Type}.
Variable lib : smtplib W.
Variable environ : gmap string string.

(** Case analysis on the next call to the transport. *)
Ltac case_call :=
  match goal with
  | |- context [smtp_SMTP ?l ?h ?p ?w] =>
      destruct (smtp_SMTP l h p w) as [[?server|?e] ?w]
  | |- context [smtp_starttls ?l ?s ?w] =>
      destruct (smtp_starttls l s w) as [[[]|?e] ?w]
  | |- context [smtp_login ?l ?s ?u ?p ?w] =>
      destruct (smtp_login l s u p w) as [[[]|?e] ?w]
  | |- context [smtp_send_message ?l ?s ?m ?w] =>
      destruct (smtp_send_message l s m w) as [[[]|?e] ?w]
  | |- context [smtp_exit ?l ?s ?w] =>
      destruct (smtp_exit l s w) as [[[]|?e] ?w]
  end; cbn [raised app].

(** The events of a run, one by one. *)
Ltac each_event :=
  repeat match goal with
         | H : _ \/ _ |- _ => destruct H
         | H : False |- _ => destruct H
         | H : In _ (_ :: _) |- _ => cbn [In] in H
         | H : In _ [] |- _ => destruct H
         | H : Ev _ _ = Ev _ _ |- _ => inversion H; subst; clear H
         end.

(** An event of the run is in its list. *)
Ltac this_event := cbn [In]; repeat (first [left; reflexivity | right]).

(** A stage of the run raised, against [H], which says none did. *)
Ltac stage_raised H :=
  match goal with
  | e : exception |- _ =>
      let Hc := fresh in
      eassert (Hc : is_stage _ = false) by (eapply (H _ e); this_event);
      discriminate Hc
  end.

Ltac unfold_tool :=
  unfold send_email, deliver, try_except, with_as, bind, extern, ret, raise,
    result_of, events_of, calls_of, world_of.

(** C5. When SMTP_USER or SMTP_PASSWORD is absent from the environment or
    empty, [send_email] returns the error string of the missing
    credentials, makes no call to the transport (no connection is
    attempted) and leaves the world as it was. *)
Theorem send_email_missing_credentials (to_email subject body : string)
    (w : W) :
  absent_or_empty (environ !! "SMTP_USER")
  \/ absent_or_empty (environ !! "SMTP_PASSWORD") ->
  send_email lib environ to_email subject body w
  = (Returns ("Error sending email: "
        +:+ "SMTP_USER and SMTP_PASSWORD environment variables are required"),
     w, []).
Proof.
  rewrite <- !truthy_false. intros H. unfold_tool.
  destruct H as [-> | ->]; [reflexivity|].
  by rewrite orb_true_r.
Qed.

(** C7, amended. With both credentials present and a transport that
    accepts the message (no stage raises: connect, STARTTLS, login and send
    all return), the calls of the run are exactly: connect, STARTTLS, login
    with the credentials, one [send_message], and the closing of the
    session.  What is returned depends on the closing: when it returns,
    the success string, which contains the recipient and the subject; when
    it raises [e], the error string of [e], although the message was
    sent. *)
Theorem send_email_success (to_email subject body : string) (w : W) :
  truthy (environ !! "SMTP_USER") = true ->
  truthy (environ !! "SMTP_PASSWORD") = true ->
  (forall c e,
     In (Ev c (Some e))
       (events_of (send_email lib environ to_email subject body w)) ->
     is_stage c = false) ->
  let text := "Email successfully sent to " +:+ to_email
                +:+ " with subject: " +:+ subject in
  let user := the (environ !! "SMTP_USER") in
  calls_of (send_email lib environ to_email subject body w)
  = [SMTP "smtp.gmail.com" 587; starttls;
     login user (the (environ !! "SMTP_PASSWORD"));
     send_message (build_message user to_email subject body);
     SMTP_exit]
  /\ ((forall e,
         ~ In (Ev SMTP_exit (Some e))
             (events_of (send_email lib environ to_email subject body w))) ->
      result_of (send_email lib environ to_email subject body w)
      = Returns text
      /\ contains text to_email = true
      /\ contains text subject = true)
  /\ (forall e,
        In (Ev SMTP_exit (Some e))
          (events_of (send_email lib environ to_email subject body w)) ->
        result_of (send_email lib environ to_email subject body w)
        = Returns ("Error sending email: " +:+ exc_str e)).
Proof.
  intros Hu Hp. unfold_tool. rewrite Hu, Hp. cbn [negb orb].
  repeat case_call; cbn [fst snd map ev_call]; intros Hstage;
    try solve [exfalso; stage_raised Hstage];
    (split; [reflexivity|]); split.
  - intros _. repeat split.
    + apply (contains_app "Email successfully sent to ").
    + rewrite <- str_app_assoc, <- str_app_assoc. apply contains_suffix.
  - intros e He. each_event; discriminate.
  - intros Hexit. exfalso. apply (Hexit e). this_event.
  - intros e' He. each_event; try discriminate. reflexivity.
Qed.

(** C6, amended. When a stage of the session (connect, STARTTLS, login or
    send) raises [e], [send_email] does not raise: it returns a string.
    When closing the session on leaving the [with] block does not raise,
    the string is "Error sending email: " followed by the text of [e];
    when the closing raises [e'], the string is "Error sending email: "
    followed by the text of [e'], and the reason of the stage is not
    reported. *)
Theorem send_email_stage_failure (to_email subject body : string) (w : W)
    (c : call) (e : exception) :
  In (Ev c (Some e))
    (events_of (send_email lib environ to_email subject body w)) ->
  is_stage c = true ->
  (exists text : string,
     result_of (send_email lib environ to_email subject body w)
     = Returns text)
  /\ ((forall e',
         ~ In (Ev SMTP_exit (Some e'))
             (events_of (send_email lib environ to_email subject body w))) ->
      result_of (send_email lib environ to_email subject body w)
      = Returns ("Error sending email: " +:+ exc_str e)
      /\ contains ("Error sending email: " +:+ exc_str e) (exc_str e) = true)
  /\ (forall e',
        In (Ev SMTP_exit (Some e'))
          (events_of (send_email lib environ to_email subject body w)) ->
        result_of (send_email lib environ to_email subject body w)
        = Returns ("Error sending email: " +:+ exc_str e')
        /\ contains ("Error sending email: " +:+ exc_str e') (exc_str e')
           = true).
Proof.
  unfold_tool.
  destruct (negb (truthy (environ !! "SMTP_USER"))
            || negb (truthy (environ !! "SMTP_PASSWORD"))); [intros []|].
  repeat case_call; cbn [fst snd]; intros Hin Hc;
    each_event; try discriminate;
    (split; [by eexists|]); split.
  all: try (intros e' He'; each_event; try discriminate;
            (split; [reflexivity | apply contains_suffix])).
  all: intros Hexit; first
    [ split; [reflexivity | apply contains_suffix]
    | exfalso; eapply Hexit; this_event ].
Qed.



(** *** More on the session *)

Ltac in_run :=
  repeat match goal with
         | H : _ \/ _ |- _ => destruct H
         | H : False |- _ => destruct H
         | H : In _ (_ :: _) |- _ => cbn [In] in H
         | H : In _ [] |- _ => destruct H
         | H : Ev _ _ = Ev _ _ |- _ => inversion H; subst; clear H
         end.

(** X1. A session that was opened is closed: when the connection to the
    relay succeeded, the session is closed exactly once and that is the
    last call of the run, whatever the stages in between did; when no
    connection succeeded, either no call was made at all or the failed
    connection is the only call, and nothing is closed. *)
Theorem send_email_session_closed (to_email subject body : string) (w : W) :
  (In (Ev (SMTP "smtp.gmail.com" 587) None)
     (events_of (send_email lib environ to_email subject body w)) ->
   (exists r,
      last (events_of (send_email lib environ to_email subject body w))
      = Some (Ev SMTP_exit r))
   /\ length (List.filter (fun c => negb (is_stage c))
                (calls_of (send_email lib environ to_email subject body w)))
      = 1)
  /\ (~ In (Ev (SMTP "smtp.gmail.com" 587) None)
        (events_of (send_email lib environ to_email subject body w)) ->
      calls_of (send_email lib environ to_email subject body w) = []
      \/ exists e,
           events_of (send_email lib environ to_email subject body w)
           = [Ev (SMTP "smtp.gmail.com" 587) (Some e)]).
Proof.
  unfold_tool.
  destruct (negb (truthy (environ !! "SMTP_USER"))
            || negb (truthy (environ !! "SMTP_PASSWORD"))).
  { cbn [fst snd map]. split; [intros []|]. intros _. by left. }
  repeat case_call; cbn [fst snd map ev_call]; split; intros H;
    try solve [split; [by eexists | reflexivity]];
    try solve [exfalso; apply H; cbn [In]; tauto];
    try solve [in_run; discriminate].
  - right. by eexists.
Qed.

(** X2. The stages of every run are a beginning of one fixed sequence:
    connect to smtp.gmail.com on port 587, STARTTLS, login with the two
    credentials of the environment, send the message built from the
    arguments.  So no stage is repeated or skipped, the login never comes
    before STARTTLS, the message is never sent before the login, and no
    argument of the call changes the relay or the credentials. *)
Theorem send_email_stage_calls_prefix (to_email subject body : string)
    (w : W) :
  exists n : nat,
    List.filter is_stage
      (calls_of (send_email lib environ to_email subject body w))
    = take n
        [SMTP "smtp.gmail.com" 587; starttls;
         login (the (environ !! "SMTP_USER"))
           (the (environ !! "SMTP_PASSWORD"));
         send_message
           (build_message (the (environ !! "SMTP_USER")) to_email subject
              body)].
Proof.
  unfold_tool.
  destruct (negb (truthy (environ !! "SMTP_USER"))
            || negb (truthy (environ !! "SMTP_PASSWORD"))).
  { by exists 0. }
  repeat case_call; cbn [fst snd map ev_call List.filter is_stage];
    first [by exists 4 | by exists 3 | by exists 2 | by exists 1].
Qed.

(** X3. The first stage that raises ends the stages: it is the last stage
    of the run (only the closing of the session may follow), and no other
    stage of the run raised. *)
Theorem send_email_failure_ends_stages (to_email subject body : string)
    (w : W) (c : call) (e : exception) :
  In (Ev c (Some e))
    (events_of (send_email lib environ to_email subject body w)) ->
  is_stage c = true ->
  last (List.filter is_stage
          (calls_of (send_email lib environ to_email subject body w)))
  = Some c
  /\ forall c' e',
       In (Ev c' (Some e'))
         (events_of (send_email lib environ to_email subject body w)) ->
       is_stage c' = true -> c' = c /\ e' = e.
Proof.
  unfold_tool.
  destruct (negb (truthy (environ !! "SMTP_USER"))
            || negb (truthy (environ !! "SMTP_PASSWORD"))); [intros []|].
  repeat case_call; cbn [fst snd map ev_call]; intros Hin Hc;
    in_run; try discriminate;
    (split; [reflexivity|]); intros c' e' Hin' Hc'; in_run;
    try discriminate; done.
Qed.

(** X4. No false success: when [send_email] returns the success string,
    every call of the run returned normally, the closing of the session
    included, and exactly one message, the one built from the arguments,
    was handed to the transport. *)
Theorem send_email_no_false_success (to_email subject body : string)
    (w : W) :
  result_of (send_email lib environ to_email subject body w)
  = Returns ("Email successfully sent to " +:+ to_email
               +:+ " with subject: " +:+ subject) ->
  (forall ev,
     In ev (events_of (send_email lib environ to_email subject body w)) ->
     ev_raised ev = None)
  /\ sent_messages (calls_of (send_email lib environ to_email subject body w))
     = [build_message (the (environ !! "SMTP_USER")) to_email subject body].
Proof.
  unfold_tool.
  destruct (negb (truthy (environ !! "SMTP_USER"))
            || negb (truthy (environ !! "SMTP_PASSWORD"))).
  { cbn [fst]. by intros [=]. }
  repeat case_call; cbn [fst snd map ev_call]; intros H;
    try discriminate H.
  split; [|reflexivity]. intros ev Hev. in_run; subst; reflexivity.
Qed.

(** X5. A failure while closing the session is what gets reported: when
    leaving the [with] block raises [e], the result is the error string of
    [e], also when every stage before it went through and the message was
    accepted by the relay. *)
Theorem send_email_closing_failure (to_email subject body : string) (w : W)
    (e : exception) :
  In (Ev SMTP_exit (Some e))
    (events_of (send_email lib environ to_email subject body w)) ->
  result_of (send_email lib environ to_email subject body w)
  = Returns ("Error sending email: " +:+ exc_str e).
Proof.
  unfold_tool.
  destruct (negb (truthy (environ !! "SMTP_USER"))
            || negb (truthy (environ !! "SMTP_PASSWORD"))); [intros []|].
  repeat case_call; cbn [fst snd]; intros Hin; in_run; try discriminate;
    reflexivity.
Qed.

(** X6. [send_email] never raises, and its answer has one of two forms:
    the success string for the recipient and the subject, or a string that
    starts with "Error sending email: ". *)
Theorem send_email_always_reports (to_email subject body : string) (w : W) :
  exists text : string,
    result_of (send_email lib environ to_email subject body w) = Returns text
    /\ (text = "Email successfully sent to " +:+ to_email
                 +:+ " with subject: " +:+ subject
        \/ String.prefix "Error sending email: " text = true).
Proof.
  unfold_tool.
  destruct (negb (truthy (environ !! "SMTP_USER"))
            || negb (truthy (environ !! "SMTP_PASSWORD"))).
  { eexists. split; [reflexivity|]. right. apply prefix_app. }
  repeat case_call; cbn [fst snd]; eexists; (split; [reflexivity|]);
    first [by left | right; apply prefix_app].
Qed.

End Mail.

(** C5 at a concrete input: only SMTP_USER is set. *)
Lemma send_email_missing_credentials_witness :
  EmailService.send_email EmailService.accepting_relay
    EmailService.only_user "a@example.com" "Hi" "Test" 0
  = (Returns ("Error sending email: "
        +:+ "SMTP_USER and SMTP_PASSWORD environment variables are required"),
     0, []).
Proof.
  apply (send_email_missing_credentials EmailService.accepting_relay
           EmailService.only_user "a@example.com" "Hi" "Test" 0).
  right. left. vm_compute. reflexivity.
Defined.

(** C7 as stated fails: the credentials are valid, the login and the
    message are accepted, one send is issued, but the relay answers QUIT
    with 421; the returned string is the error of the closing and contains
    neither the recipient nor the subject. *)
Lemma send_email_accepted_yet_error :
  exists text : string,
    truthy (EmailService.credentials !! "SMTP_USER") = true
    /\ truthy (EmailService.credentials !! "SMTP_PASSWORD") = true
    /\ In (Ev (EmailService.login "relay@example.com" "app-password") None)
         (events_of (EmailService.send_email
                       EmailService.closing_failure_relay
                       EmailService.credentials "a@example.com" "Hi"
                       "Test" 0))
    /\ In (Ev (EmailService.send_message
                 (EmailService.build_message "relay@example.com"
                    "a@example.com" "Hi" "Test")) None)
         (events_of (EmailService.send_email
                       EmailService.closing_failure_relay
                       EmailService.credentials "a@example.com" "Hi"
                       "Test" 0))
    /\ length (EmailService.sent_messages
                (calls_of (EmailService.send_email
                             EmailService.closing_failure_relay
                             EmailService.credentials "a@example.com" "Hi"
                             "Test" 0)))
       = 1
    /\ result_of (EmailService.send_email
                    EmailService.closing_failure_relay
                    EmailService.credentials "a@example.com" "Hi" "Test" 0)
       = Returns text
    /\ contains text "a@example.com" = false
    /\ contains text "Hi" = false.
Proof.
  eexists. vm_compute. repeat split; tauto.
Qed.

(** C7, amended, at the input of the specification (recipient
    a@example.com, subject Hi, body Test): with a relay that accepts
    everything the success string is returned; with a relay that accepts
    the message and fails the closing, the error string. *)
Lemma send_email_success_witness :
  result_of (EmailService.send_email EmailService.accepting_relay
               EmailService.credentials "a@example.com" "Hi" "Test" 0)
  = Returns "Email successfully sent to a@example.com with subject: Hi"
  /\ result_of (EmailService.send_email EmailService.closing_failure_relay
                  EmailService.credentials "a@example.com" "Hi" "Test" 0)
     = Returns ("Error sending email: "
                  +:+ exc_str EmailService.SMTPResponseException).
Proof.
  split.
  - destruct (send_email_success EmailService.accepting_relay
                EmailService.credentials "a@example.com" "Hi" "Test" 0)
      as (_ & Hclosed & _).
    + vm_compute. reflexivity.
    + vm_compute. reflexivity.
    + intros c e H. vm_compute in H. intuition discriminate.
    + apply Hclosed. intros e H. vm_compute in H. intuition discriminate.
  - destruct (send_email_success EmailService.closing_failure_relay
                EmailService.credentials "a@example.com" "Hi" "Test" 0)
      as (_ & _ & Hfailed).
    + vm_compute. reflexivity.
    + vm_compute. reflexivity.
    + intros c e H. vm_compute in H.
      repeat (destruct H as [H|H]; [try discriminate H|]);
        [by injection H as <- | destruct H].
    + apply Hfailed. vm_compute. do 4 right. left. reflexivity.
Defined.

(** C6 as stated fails: the login is rejected, closing the session raises
    as well, and the returned string carries the text of the second
    failure and not that of the rejected login. *)
Lemma send_email_failure_reason_lost :
  exists (c : EmailService.call) (e : exception) (text : string),
    In (Ev c (Some e))
      (events_of (EmailService.send_email EmailService.rejecting_relay
                    EmailService.credentials "a@example.com" "Hi" "Test" 0))
    /\ EmailService.is_stage c = true
    /\ result_of (EmailService.send_email EmailService.rejecting_relay
                    EmailService.credentials "a@example.com" "Hi" "Test" 0)
       = Returns text
    /\ contains text (exc_str e) = false.
Proof.
  exists (EmailService.login "relay@example.com" "app-password"),
    EmailService.SMTPAuthenticationError.
  eexists. vm_compute. repeat split. tauto.
Qed.

(** C6, amended, at two inputs: a relay that rejects the login and closes
    the session normally, and one that rejects the login and fails the
    closing as well. *)
Lemma send_email_stage_failure_witness :
  result_of (EmailService.send_email EmailService.rejecting_login_relay
               EmailService.credentials "a@example.com" "Hi" "Test" 0)
  = Returns ("Error sending email: "
               +:+ exc_str EmailService.SMTPAuthenticationError)
  /\ result_of (EmailService.send_email EmailService.rejecting_relay
                  EmailService.credentials "a@example.com" "Hi" "Test" 0)
     = Returns ("Error sending email: "
                  +:+ exc_str EmailService.SMTPResponseException).
Proof.
  split.
  - destruct (send_email_stage_failure EmailService.rejecting_login_relay
                EmailService.credentials "a@example.com" "Hi" "Test" 0
                (EmailService.login "relay@example.com" "app-password")
                EmailService.SMTPAuthenticationError)
      as (_ & Hclosed & _).
    + vm_compute. do 2 right. left. reflexivity.
    + reflexivity.
    + apply Hclosed. intros e H. vm_compute in H. intuition discriminate.
  - destruct (send_email_stage_failure EmailService.rejecting_relay
                EmailService.credentials "a@example.com" "Hi" "Test" 0
                (EmailService.login "relay@example.com" "app-password")
                EmailService.SMTPAuthenticationError)
      as (_ & _ & Hfailed).
    + vm_compute. do 2 right. left. reflexivity.
    + reflexivity.
    + apply Hfailed. vm_compute. do 3 right. left. reflexivity.
Defined.


(** ** The database question tool *)

Lemma lookup_update_singleton (s : gmap string string) (k v k' : string) :
  update s {[ k := v ]} !! k' = if String.eqb k k' then Some v else s !! k'.
Proof.
  unfold update. rewrite <- insert_union_singleton_l.
  destruct (String.eqb_spec k k') as [->|Hne].
  - apply lookup_insert_eq.
  - by apply lookup_insert_ne.
Qed.


Lemma lookup_initial_state (question k : string) :
  DatabaseAgent.initial_state question !! k
  = if String.eqb "question" k then Some question
    else if String.eqb "query" k then Some EmptyString
    else if String.eqb "result" k then Some EmptyString
    else if String.eqb "answer" k then Some EmptyString
    else None.
Proof.
  unfold DatabaseAgent.initial_state.
  rewrite !lookup_insert, lookup_singleton.
  repeat match goal with
         | |- context [String.eqb ?a k] =>
             destruct (String.eqb_spec a k) as [<-|?];
               [done | rewrite decide_False by done]
         end.
  done.
Qed.

Lemma error_answer_dumps (e : exception) :
  DatabaseAgent.error_answer
    (Json.dumps (DatabaseAgent.error_response e)) e.
Proof.
  unfold DatabaseAgent.error_answer. rewrite !field_dumps.
  repeat split. apply contains_suffix.
Qed.

Lemma success_answer_dumps (answer query result : string) :
  DatabaseAgent.success_answer
    (Json.dumps (DatabaseAgent.success_response answer query result))
    answer query result.
Proof.
  unfold DatabaseAgent.success_answer. rewrite !field_dumps.
  by repeat split.
Qed.

(** The text [json.dumps] writes is printable ASCII. *)

Lemma all_printable_app (a b : string) :
  Json.all_printable (a +:+ b)
  = Json.all_printable a && Json.all_printable b.
Proof.
  induction a as [|c a IH]; [reflexivity|].
  rewrite str_app_cons. cbn [Json.all_printable]. rewrite IH.
  by rewrite andb_assoc.
Qed.

Lemma escape_char_printable (c : ascii) :
  Json.all_printable (Json.escape_char c) = true.
Proof. destruct c as [[] [] [] [] [] [] [] []]; reflexivity. Qed.

Lemma escape_printable (s : string) :
  Json.all_printable (Json.escape s) = true.
Proof.
  induction s as [|c s IH]; [reflexivity|].
  cbn [Json.escape]. by rewrite all_printable_app, escape_char_printable, IH.
Qed.

Lemma dumps_value_printable (v : Json.value) :
  Json.all_printable (Json.dumps_value v) = true.
Proof.
  destruct v as [|s]; [reflexivity|]. unfold Json.dumps_value.
  by rewrite !all_printable_app, escape_printable.
Qed.

Lemma dumps_item_printable (kv : string * Json.value) :
  Json.all_printable (Json.dumps_item kv) = true.
Proof.
  unfold Json.dumps_item.
  by rewrite !all_printable_app, escape_printable, dumps_value_printable.
Qed.

Lemma dumps_items_printable (d : Json.object) :
  Json.all_printable (Json.dumps_items d) = true.
Proof.
  induction d as [|kv d IH]; [reflexivity|].
  destruct d as [|kv' d]; [apply dumps_item_printable|].
  rewrite dumps_items_cons.
  by rewrite !all_printable_app, dumps_item_printable, IH.
Qed.

Lemma dumps_printable (d : Json.object) :
  Json.all_printable (Json.dumps d) = true.
Proof.
  unfold Json.dumps. by rewrite !all_printable_app, dumps_items_printable.
Qed.

Lemma contains_skip (a b sub : string) :
  contains b sub = true -> contains (a +:+ b) sub = true.
Proof.
  intros H. induction a as [|c a IH]; [done|].
  rewrite str_app_cons. cbn [contains]. rewrite IH. apply orb_true_r.
Qed.

Lemma contains_head (sub post : string) :
  contains (sub +:+ post) sub = true.
Proof. apply (contains_app EmptyString). Qed.

Section Agent.
Import DatabaseAgent.
Context {W : Type}.
Variable lib : langchain W.
Variable environ : gmap string string.

(** Case analysis on the next call to a library. *)
Ltac case_call :=
  match goal with
  | |- context [from_uri ?l ?u ?w] =>
      destruct (from_uri l u w) as [[?db|?e] ?w] eqn:?
  | |- context [get_table_info ?l ?d ?w] =>
      destruct (get_table_info l d w) as [[?table_info|?e] ?w] eqn:?
  | |- context [structured_invoke ?l ?m ?p ?w] =>
      destruct (structured_invoke l m p w) as [[?output|?e] ?w] eqn:?
  | |- context [tool_invoke ?l ?d ?q ?w] =>
      destruct (tool_invoke l d q w) as [[?rows|?e] ?w] eqn:?
  | |- context [invoke ?l ?m ?p ?w] =>
      destruct (invoke l m p w) as [[?response|?e] ?w] eqn:?
  | |- context [?d !! "query"] =>
      is_var d; destruct (d !! "query") as [?query|] eqn:?
  end.

Ltac case_lookup :=
  match goal with
  | |- context [match ?d !! ?k with Some _ => _ | None => _ end] =>
      destruct (d !! k) eqn:?
  end.

(** The lookups in the state of the workflow are decided by the keys. *)
Ltac pysimpl :=
  cbn [raised fst snd app];
  rewrite ?lookup_update_singleton, ?lookup_initial_state;
  cbn [String.eqb Ascii.eqb Bool.eqb].

Ltac unfold_agent :=
  unfold database_agent, database_agent_body, workflow, state_update,
    write_query, execute_query, generate_answer, getitem,
    try_except, bind, extern, ret, raise,
    result_of, events_of, calls_of, world_of.

Ltac in_events :=
  repeat match goal with
         | H : In _ (_ :: _) |- _ => destruct H as [H|H]
         | H : In _ [] |- _ => destruct H
         | H : Ev _ _ = Ev _ _ |- _ => inversion H; subst; clear H
         end.

(** C1. [database_agent] always returns a text, whatever the libraries do;
    and when the body of its [try] raises [e], in particular when a call to
    the model or to the database raised [e], the text is the JSON whose
    answer, query and result are empty strings and whose error is the
    non-empty string "Error: " followed by [str(e)]. *)
Theorem database_agent_never_raises (question : string) (w : W) :
  (exists text : string,
     result_of (database_agent lib environ question w) = Returns text)
  /\ (forall e : exception,
        result_of (database_agent_body lib environ question w) = Raises e
        \/ (exists c : call,
              In (Ev c (Some e))
                (events_of (database_agent lib environ question w))) ->
        exists text : string,
          result_of (database_agent lib environ question w) = Returns text
          /\ error_answer text e).
Proof.
  unfold_agent.
  destruct (truthy (environ !! "OPENAI_API_KEY")); cbn [negb].
  2:{ split; [by eexists|]. intros e [[= <-]|[c []]].
      eexists; split; [done|apply error_answer_dumps]. }
  destruct (truthy (environ !! "POSTGRESQL_URL")); cbn [negb].
  2:{ split; [by eexists|]. intros e [[= <-]|[c []]].
      eexists; split; [done|apply error_answer_dumps]. }
  pysimpl. repeat (case_call; pysimpl);
    (split; [by eexists|]); intros e' [H|[c H]];
    cbn [fst snd app] in H; in_events; try discriminate;
    try (injection H as <-);
    eexists; (split; [reflexivity|apply error_answer_dumps]).
Qed.

(** C4. When OPENAI_API_KEY or POSTGRESQL_URL is absent from the
    environment, [database_agent] returns the error JSON (empty answer,
    query and result, non-empty error), makes no call at all to the model
    or to the database, and leaves the world as it was. *)
Theorem database_agent_missing_configuration (question : string) (w : W) :
  environ !! "OPENAI_API_KEY" = None \/ environ !! "POSTGRESQL_URL" = None ->
  exists e : exception,
    database_agent lib environ question w
    = (Returns (Json.dumps (error_response e)), w, [])
    /\ error_answer (Json.dumps (error_response e)) e.
Proof.
  intros H. unfold_agent.
  destruct (truthy (environ !! "OPENAI_API_KEY")) eqn:Hkey; cbn [negb].
  - destruct H as [H|H]; rewrite H in *; [discriminate|].
    cbn [truthy negb]. eexists; split; [done|apply error_answer_dumps].
  - eexists; split; [done|apply error_answer_dumps].
Qed.

(** C3. When the execution of the query raises [e], the model is not
    invoked for the answer (no [llm.invoke] among the calls of the run) and
    the returned JSON has empty answer, query and result and the non-empty
    error "Error: " followed by [str(e)]. *)
Theorem execution_failure_skips_answer (question : string) (w : W)
    (query : string) (e : exception) :
  In (Ev (execute_query_tool_invoke query) (Some e))
    (events_of (database_agent lib environ question w)) ->
  List.filter is_answer_call
    (calls_of (database_agent lib environ question w)) = []
  /\ exists text : string,
       result_of (database_agent lib environ question w) = Returns text
       /\ error_answer text e.
Proof.
  unfold_agent.
  destruct (truthy (environ !! "OPENAI_API_KEY")); cbn [negb]; [|intros []].
  destruct (truthy (environ !! "POSTGRESQL_URL")); cbn [negb]; [|intros []].
  pysimpl. repeat (case_call; pysimpl);
    cbn [fst snd app]; intros H; in_events; try discriminate.
  split; [reflexivity|].
  eexists; split; [reflexivity|apply error_answer_dumps].
Qed.

(** C2, amended. Every answer of [database_agent] is of one of two kinds:
    the error JSON (answer, query and result empty, error non-empty), or a
    JSON whose error is null and whose answer, query and result are what
    the three stages produced, in a run where no call raised; nothing makes
    these three non-empty.  In particular, when the model returns [query]
    for the first prompt, the database returns [result] for that query and
    the model returns [response] for the second prompt, the returned JSON
    has this query, this result, the content of the response as answer, and
    a null error. *)
Theorem database_agent_error_or_stage_outputs (question : string) (w : W) :
  ((exists e : exception,
      result_of (database_agent lib environ question w)
      = Returns (Json.dumps (error_response e))
      /\ error_answer (Json.dumps (error_response e)) e)
   \/ (exists answer query result : string,
         result_of (database_agent lib environ question w)
         = Returns (Json.dumps (success_response answer query result))
         /\ success_answer
              (Json.dumps (success_response answer query result))
              answer query result
         /\ (forall ev,
               In ev (events_of (database_agent lib environ question w)) ->
               ev_raised ev = None)))
  /\ (forall (db : SQLDatabase lib) (table_info : string)
         (output : gmap string string) (query result : string)
         (response : AIMessage) (w1 w2 w3 w4 w5 : W),
        truthy (environ !! "OPENAI_API_KEY") = true ->
        truthy (environ !! "POSTGRESQL_URL") = true ->
        let llm := {| model := "gpt-4o-mini";
                      api_key := the (environ !! "OPENAI_API_KEY") |} in
        from_uri lib (the (environ !! "POSTGRESQL_URL")) w
        = (Returns db, w1) ->
        get_table_info lib db w1 = (Returns table_info, w2) ->
        structured_invoke lib llm
          (query_prompt_template (dialect lib db) 10 table_info question) w2
        = (Returns output, w3) ->
        output !! "query" = Some query ->
        tool_invoke lib db query w3 = (Returns result, w4) ->
        invoke lib llm (answer_prompt question query result) w4
        = (Returns response, w5) ->
        result_of (database_agent lib environ question w)
        = Returns (Json.dumps
                     (success_response (content response) query result))
        /\ success_answer
             (Json.dumps (success_response (content response) query result))
             (content response) query result).
Proof.
  split.
  - unfold_agent.
    destruct (truthy (environ !! "OPENAI_API_KEY")); cbn [negb].
    2:{ left. eexists; split; [done|apply error_answer_dumps]. }
    destruct (truthy (environ !! "POSTGRESQL_URL")); cbn [negb].
    2:{ left. eexists; split; [done|apply error_answer_dumps]. }
    pysimpl. repeat (case_call; pysimpl);
      try match goal with
          | |- context [Returns (Json.dumps (error_response ?x)) = _] =>
              left; exists x; split; [reflexivity|apply error_answer_dumps]
          end.
    right. do 3 eexists. split; [reflexivity|].
    split; [apply success_answer_dumps|].
    cbn [fst snd app]. intros ev H. in_events; by subst.
  - intros db table_info output query result response w1 w2 w3 w4 w5
      Hkey Hurl llm H1 H2 H3 H4 H5 H6.
    split; [|apply success_answer_dumps].
    unfold_agent. rewrite Hkey, Hurl. cbn [negb].
    rewrite H1. pysimpl. rewrite H2. pysimpl.
    fold llm. rewrite H3. pysimpl. rewrite H4. pysimpl.
    rewrite H5. pysimpl. rewrite H6. pysimpl. reflexivity.
Qed.

Section Stages.
Variable db : SQLDatabase lib.
Variable llm : ChatOpenAI.







End Stages.

(** Two runs whose calls get the same responses go the same way. *)
Ltac same_response Hdet f :=
  match goal with
  | |- context [f ?w1] =>
      match goal with
      | |- context [f ?w2] =>
          lazymatch w2 with
          | w1 => fail
          | _ =>
              let H := fresh "Hsame" in
              pose proof (Hdet w1 w2) as H;
              destruct (f w1) as [[?a|?e] ?w];
              destruct (f w2) as [[?a|?e] ?w];
              cbn [fst] in H; try discriminate H;
              injection H as <-
          end
      end
  end.

Ltac case_both Hdet :=
  destruct Hdet as (Huri & Hinfo & Hstructured & Htool & Hinvoke);
  repeat (first
    [ match goal with
      | |- context [from_uri ?l ?u _] =>
          same_response (Huri u) (from_uri l u)
      end
    | match goal with
      | |- context [get_table_info ?l ?d _] =>
          same_response (Hinfo d) (get_table_info l d)
      end
    | match goal with
      | |- context [structured_invoke ?l ?m ?p _] =>
          same_response (Hstructured m p) (structured_invoke l m p)
      end
    | match goal with
      | |- context [tool_invoke ?l ?d ?q _] =>
          same_response (Htool d q) (tool_invoke l d q)
      end
    | match goal with
      | |- context [invoke ?l ?m ?p _] =>
          same_response (Hinvoke m p) (invoke l m p)
      end
    | case_lookup ];
    pysimpl).

(** With responses that do not depend on the world, the answer of the
    tool and the calls it makes do not depend on the world either. *)
Lemma database_agent_same_response (question : string) (w w' : W) :
  deterministic lib ->
  result_of (database_agent lib environ question w)
  = result_of (database_agent lib environ question w')
  /\ calls_of (database_agent lib environ question w)
     = calls_of (database_agent lib environ question w').
Proof.
  intros Hdet. unfold_agent.
  destruct (truthy (environ !! "OPENAI_API_KEY")); cbn [negb]; [|done].
  destruct (truthy (environ !! "POSTGRESQL_URL")); cbn [negb]; [|done].
  pysimpl. case_both Hdet; done.
Qed.

(** C9. With an unchanged database and a deterministic model stub (the
    responses of the libraries do not depend on the state of the world),
    calling [database_agent] a second time with the same question, in the
    world the first call left, returns the same text, hence the same
    query, result and answer, after the same calls. *)
Theorem database_agent_twice (question : string) (w : W) :
  deterministic lib ->
  let first := database_agent lib environ question w in
  let second := database_agent lib environ question (world_of first) in
  result_of first = result_of second
  /\ calls_of first = calls_of second.
Proof. intros Hdet first second. by apply database_agent_same_response. Qed.


(** *** More on the workflow *)

Ltac in_run :=
  repeat match goal with
         | H : _ \/ _ |- _ => destruct H
         | H : False |- _ => destruct H
         | H : In _ (_ :: _) |- _ => cbn [In] in H
         | H : In _ [] |- _ => destruct H
         | H : Ev _ _ = Ev _ _ |- _ => inversion H; subst; clear H
         end.

Ltac in_list := cbn [In]; repeat (first [by left | right]).

(** X7. An empty configuration value counts as a missing one, and the
    credential of the model is checked first: when OPENAI_API_KEY is
    absent or empty the answer is the error JSON that names it, whatever
    POSTGRESQL_URL is; when the key is set and POSTGRESQL_URL is absent or
    empty the answer is the error JSON that names the URL.  In both cases
    no call is made and the world is unchanged. *)
Theorem database_agent_falsy_configuration (question : string) (w : W) :
  (absent_or_empty (environ !! "OPENAI_API_KEY") ->
   database_agent lib environ question w
   = (Returns (Json.dumps (error_response
        (ValueError "OPENAI_API_KEY environment variable is required"))),
      w, []))
  /\ (truthy (environ !! "OPENAI_API_KEY") = true ->
      absent_or_empty (environ !! "POSTGRESQL_URL") ->
      database_agent lib environ question w
      = (Returns (Json.dumps (error_response
           (ValueError "POSTGRESQL_URL environment variable is required"))),
         w, [])).
Proof.
  rewrite <- !truthy_false. unfold_agent.
  split; [by intros ->|]. by intros -> ->.
Qed.

(** The dictionary behind every answer. *)
Lemma database_agent_dumps (question : string) (w : W) :
  exists d : Json.object,
    result_of (database_agent lib environ question w)
    = Returns (Json.dumps d)
    /\ map fst d = ["answer"; "query"; "result"; "error"].
Proof.
  unfold_agent.
  destruct (truthy (environ !! "OPENAI_API_KEY")); cbn [negb];
    [|by eexists].
  destruct (truthy (environ !! "POSTGRESQL_URL")); cbn [negb];
    [|by eexists].
  pysimpl. repeat (case_call; pysimpl); by eexists.
Qed.

(** X8. Whatever the libraries return or raise, the text [database_agent]
    returns reads back as a JSON object with exactly the four keys answer,
    query, result and error, in this order. *)
Theorem database_agent_returns_json_object (question : string) (w : W) :
  exists (text : string) (d : Json.object),
    result_of (database_agent lib environ question w) = Returns text
    /\ Json.loads text = Some d
    /\ map fst d = ["answer"; "query"; "result"; "error"].
Proof.
  destruct (database_agent_dumps question w) as (d & Hd & Hkeys).
  exists (Json.dumps d), d. by rewrite loads_dumps.
Qed.

(** X9. Whatever texts the model and the database return, the text
    [database_agent] returns is printable ASCII only: quotes, backslashes,
    line breaks, control characters and characters above 126 of the query,
    the result, the answer or the exception text are all escaped. *)
Theorem database_agent_printable_ascii (question : string) (w : W) :
  exists text : string,
    result_of (database_agent lib environ question w) = Returns text
    /\ Json.all_printable text = true.
Proof.
  destruct (database_agent_dumps question w) as (d & Hd & _).
  exists (Json.dumps d). split; [done|apply dumps_printable].
Qed.

(** X10. The calls of every run are a beginning of one fixed sequence:
    open the database at the POSTGRESQL_URL of the environment, read the
    schema, invoke the model with the query prompt for the question,
    execute a query, invoke the model with the answer prompt for the
    question, that query and its result.  So no call is repeated (no
    retry) and no stage runs before the one before it. *)
Theorem database_agent_calls_prefix (question : string) (w : W) :
  exists (n : nat) (dialect table_info query result : string),
    calls_of (database_agent lib environ question w)
    = take n
        [SQLDatabase_from_uri (the (environ !! "POSTGRESQL_URL"));
         db_get_table_info;
         structured_llm_invoke
           (query_prompt_template dialect 10 table_info question);
         execute_query_tool_invoke query;
         llm_invoke (answer_prompt question query result)].
Proof.
  unfold_agent.
  destruct (truthy (environ !! "OPENAI_API_KEY")); cbn [negb];
    [|by exists 0, EmptyString, EmptyString, EmptyString, EmptyString].
  destruct (truthy (environ !! "POSTGRESQL_URL")); cbn [negb];
    [|by exists 0, EmptyString, EmptyString, EmptyString, EmptyString].
  pysimpl. repeat (case_call; pysimpl); cbn [map ev_call].
  - by exists 5, (dialect lib db), table_info, query, rows.
  - by exists 5, (dialect lib db), table_info, query, rows.
  - by exists 4, (dialect lib db), table_info, query, EmptyString.
  - by exists 3, (dialect lib db), table_info, EmptyString, EmptyString.
  - by exists 3, (dialect lib db), table_info, EmptyString, EmptyString.
  - by exists 2, EmptyString, EmptyString, EmptyString, EmptyString.
  - by exists 1, EmptyString, EmptyString, EmptyString, EmptyString.
Qed.

(** X11. The first call that raises is the last call of the run: nothing
    is called after it, and no other call of the run raised. *)
Theorem database_agent_failure_is_last_call (question : string) (w : W)
    (c : call) (e : exception) :
  In (Ev c (Some e)) (events_of (database_agent lib environ question w)) ->
  last (events_of (database_agent lib environ question w))
  = Some (Ev c (Some e))
  /\ forall c' e',
       In (Ev c' (Some e'))
         (events_of (database_agent lib environ question w)) ->
       c' = c /\ e' = e.
Proof.
  unfold_agent.
  destruct (truthy (environ !! "OPENAI_API_KEY")); cbn [negb]; [|intros []].
  destruct (truthy (environ !! "POSTGRESQL_URL")); cbn [negb]; [|intros []].
  pysimpl. repeat (case_call; pysimpl); cbn [fst snd app]; intros H;
    in_run; try discriminate;
    (split; [reflexivity|]); intros c' e' H'; in_run; try discriminate;
    done.
Qed.

(** X12. Malformed model output: when the structured output of the model
    has no key query, the answer is the error JSON whose error is
    "Error: 'query'", and the run stops after the model call: no query is
    executed and the model is not invoked for an answer. *)
Theorem database_agent_malformed_output (question : string)
    (w w1 w2 w3 : W) (db : SQLDatabase lib) (table_info : string)
    (output : gmap string string) :
  truthy (environ !! "OPENAI_API_KEY") = true ->
  truthy (environ !! "POSTGRESQL_URL") = true ->
  let llm := {| model := "gpt-4o-mini";
                api_key := the (environ !! "OPENAI_API_KEY") |} in
  let prompt := query_prompt_template (dialect lib db) 10 table_info
                  question in
  from_uri lib (the (environ !! "POSTGRESQL_URL")) w = (Returns db, w1) ->
  get_table_info lib db w1 = (Returns table_info, w2) ->
  structured_invoke lib llm prompt w2 = (Returns output, w3) ->
  output !! "query" = None ->
  result_of (database_agent lib environ question w)
  = Returns (Json.dumps (error_response (KeyError "query")))
  /\ Json.field (Json.dumps (error_response (KeyError "query"))) "error"
     = Some (Json.Str ("Error: " +:+ squote +:+ "query" +:+ squote))
  /\ calls_of (database_agent lib environ question w)
     = [SQLDatabase_from_uri (the (environ !! "POSTGRESQL_URL"));
        db_get_table_info; structured_llm_invoke prompt].
Proof.
  intros Hkey Hurl llm prompt H1 H2 H3 H4.
  unfold_agent. rewrite Hkey, Hurl. cbn [negb].
  rewrite H1. pysimpl. rewrite H2. pysimpl.
  fold llm. fold prompt. rewrite H3. pysimpl. rewrite H4. pysimpl.
  split; [reflexivity|]. split; [|reflexivity].
  by rewrite field_dumps.
Qed.

(** X13. The query is executed as the model wrote it: when the model
    returns [query], whatever text this is, the tool is invoked with
    exactly [query] and with no other query; and when the execution
    returns [result], the model is invoked with the answer prompt built
    from the question, [query] and [result]. *)
Theorem database_agent_executes_model_query (question : string)
    (w w1 w2 w3 : W) (db : SQLDatabase lib) (table_info : string)
    (output : gmap string string) (query : string) :
  truthy (environ !! "OPENAI_API_KEY") = true ->
  truthy (environ !! "POSTGRESQL_URL") = true ->
  let llm := {| model := "gpt-4o-mini";
                api_key := the (environ !! "OPENAI_API_KEY") |} in
  from_uri lib (the (environ !! "POSTGRESQL_URL")) w = (Returns db, w1) ->
  get_table_info lib db w1 = (Returns table_info, w2) ->
  structured_invoke lib llm
    (query_prompt_template (dialect lib db) 10 table_info question) w2
  = (Returns output, w3) ->
  output !! "query" = Some query ->
  In (execute_query_tool_invoke query)
    (calls_of (database_agent lib environ question w))
  /\ (forall query',
        In (execute_query_tool_invoke query')
          (calls_of (database_agent lib environ question w)) ->
        query' = query)
  /\ (forall (result : string) (w4 : W),
        tool_invoke lib db query w3 = (Returns result, w4) ->
        In (llm_invoke (answer_prompt question query result))
          (calls_of (database_agent lib environ question w))).
Proof.
  intros Hkey Hurl llm H1 H2 H3 H4.
  unfold_agent. rewrite Hkey, Hurl. cbn [negb].
  rewrite H1. pysimpl. rewrite H2. pysimpl.
  fold llm. rewrite H3. pysimpl. rewrite H4. pysimpl.
  destruct (tool_invoke lib db query w3) as [[rows|e] w4]; pysimpl.
  - destruct (invoke lib llm (answer_prompt question query rows) w4)
      as [[response|e] w5]; pysimpl; cbn [fst snd app map ev_call In];
      (split; [in_list|]);
      (split; [intros q' Hq; in_run; congruence|]);
      intros result w4' [= <- <-]; in_list.
  - cbn [fst snd app map ev_call In]. split; [in_list|].
    split; [intros q' Hq; in_run; congruence|].
    intros result w4' [=].
Qed.

(** X14. The errors of the tool itself: when the body of the [try] raises
    [e], either a call to a library raised [e], or OPENAI_API_KEY is
    missing and [e] is the [ValueError] that names it, or POSTGRESQL_URL is
    missing and [e] is the [ValueError] that names it, or [e] is
    [KeyError] for query and the model returned, for the query prompt, a
    structured output that has no key query.  No lookup in the state of the
    workflow is among the causes: a [KeyError] only ever comes from the
    output of the model. *)
Theorem database_agent_internal_errors (question : string) (w : W)
    (e : exception) :
  result_of (database_agent_body lib environ question w) = Raises e ->
  (exists c : call,
     In (Ev c (Some e)) (events_of (database_agent lib environ question w)))
  \/ (e = ValueError "OPENAI_API_KEY environment variable is required"
      /\ truthy (environ !! "OPENAI_API_KEY") = false)
  \/ (e = ValueError "POSTGRESQL_URL environment variable is required"
      /\ truthy (environ !! "POSTGRESQL_URL") = false)
  \/ (e = KeyError "query"
      /\ exists (db : SQLDatabase lib) (table_info : string)
                (output : gmap string string) (w1 w2 w3 : W),
           from_uri lib (the (environ !! "POSTGRESQL_URL")) w
           = (Returns db, w1)
           /\ get_table_info lib db w1 = (Returns table_info, w2)
           /\ structured_invoke lib
                {| model := "gpt-4o-mini";
                   api_key := the (environ !! "OPENAI_API_KEY") |}
                (query_prompt_template (dialect lib db) 10 table_info
                   question) w2
              = (Returns output, w3)
           /\ output !! "query" = None).
Proof.
  unfold_agent.
  destruct (truthy (environ !! "OPENAI_API_KEY")); cbn [negb];
    [|intros [= <-]; tauto].
  destruct (truthy (environ !! "POSTGRESQL_URL")); cbn [negb];
    [|intros [= <-]; tauto].
  pysimpl. repeat (case_call; pysimpl); cbn [fst snd app];
    intros [= <-];
    first [ do 3 right; split; [reflexivity|]; eauto 10
          | left; eexists; in_list ].
Qed.

Section StageErrors.
Variable db : SQLDatabase lib.
Variable llm : ChatOpenAI.

(** X15. The stages on a state that lacks their input.  [write_query]
    without question reads the schema and then raises [KeyError] for
    question, without invoking the model; [execute_query] without query
    raises [KeyError] for query without touching the database;
    [generate_answer] without one of question, query, result raises
    [KeyError] for a missing key without invoking the model. *)
Theorem stages_missing_key (state : gmap string string) (w : W) :
  (state !! "question" = None ->
   (forall (table_info : string) (w1 : W),
      get_table_info lib db w = (Returns table_info, w1) ->
      write_query lib db llm state w
      = (Raises (KeyError "question"), w1, [Ev db_get_table_info None]))
   /\ calls_of (write_query lib db llm state w) = [db_get_table_info])
  /\ (state !! "query" = None ->
      execute_query lib db state w = (Raises (KeyError "query"), w, []))
  /\ (state !! "question" = None \/ state !! "query" = None
      \/ state !! "result" = None ->
      exists key : string,
        generate_answer lib llm state w = (Raises (KeyError key), w, [])
        /\ state !! key = None).
Proof.
  unfold write_query, execute_query, generate_answer, getitem, bind, extern,
    ret, raise, calls_of.
  split; [|split].
  - intros ->. split.
    + intros table_info w1 ->. reflexivity.
    + by destruct (get_table_info lib db w) as [[table_info|e] w1].
  - by intros ->.
  - intros H.
    destruct (state !! "question") eqn:Hq; [|by exists "question"].
    destruct (state !! "query") eqn:Hy; [|by exists "query"].
    destruct (state !! "result") eqn:Hr; [|by exists "result"].
    by destruct H as [|[|]].
Qed.
End StageErrors.

(** X16. What the prompts carry.  The query prompt is a system message
    followed by the user message "Question: " and the question; the
    system message contains the dialect, the schema description and the
    ceiling "at most 10 results".  The answer prompt contains the question,
    the query and the result, each as it is. *)
Theorem prompts_carry_inputs
    (dialect table_info question query result : string) :
  (exists system : string,
     query_prompt_template dialect 10 table_info question
     = [("system", system); ("user", "Question: " +:+ question)]
     /\ contains system dialect = true
     /\ contains system table_info = true
     /\ contains system "at most 10 results" = true)
  /\ contains (answer_prompt question query result) question = true
  /\ contains (answer_prompt question query result) query = true
  /\ contains (answer_prompt question query result) result = true.
Proof.
  split.
  - eexists. split; [reflexivity|].
    unfold system_message.
    split; [|split].
    + apply contains_skip, contains_head.
    + do 5 apply contains_skip. apply contains_head.
    + do 2 apply contains_skip.
      match goal with
      | |- contains (?b +:+ ?k +:+ ?c +:+ ?rest) _ = true =>
          change (b +:+ k +:+ c +:+ rest)
            with (String.substring 0 (String.length b - 8) b
                    +:+ "at most 10 results"
                    +:+ String.substring 8 (String.length c) c +:+ rest)
      end.
      apply contains_skip, contains_head.
  - unfold answer_prompt. split; [|split].
    + do 5 apply contains_skip. apply contains_head.
    + do 8 apply contains_skip. apply contains_head.
    + do 10 apply contains_skip. apply contains_suffix.
Qed.

End Agent.

(** C1 at a concrete input: the database rejects the query. *)
Lemma database_agent_never_raises_witness :
  exists text : string,
    result_of (DatabaseAgent.database_agent
                 (DatabaseAgent.stub_invalid_column
                    "SELECT nmae FROM users LIMIT 10" "unused")
                 DatabaseAgent.configuration "Who are the users?" 0)
    = Returns text
    /\ DatabaseAgent.error_answer text DatabaseAgent.UndefinedColumn.
Proof.
  apply (proj2 (database_agent_never_raises
                  (DatabaseAgent.stub_invalid_column
                     "SELECT nmae FROM users LIMIT 10" "unused")
                  DatabaseAgent.configuration "Who are the users?" 0)
           DatabaseAgent.UndefinedColumn).
  left. vm_compute. reflexivity.
Defined.

(** C4 at a concrete input: POSTGRESQL_URL is not set. *)
Lemma database_agent_missing_configuration_witness :
  exists e : exception,
    DatabaseAgent.database_agent
      (DatabaseAgent.stub "SELECT name FROM users LIMIT 10"
         "[('Alice',), ('Bob',)]" "Alice and Bob.")
      DatabaseAgent.no_connection_string "Who are the users?" 0
    = (Returns (Json.dumps (DatabaseAgent.error_response e)), 0, [])
    /\ DatabaseAgent.error_answer
         (Json.dumps (DatabaseAgent.error_response e)) e.
Proof.
  apply (database_agent_missing_configuration
           (DatabaseAgent.stub "SELECT name FROM users LIMIT 10"
              "[('Alice',), ('Bob',)]" "Alice and Bob.")
           DatabaseAgent.no_connection_string "Who are the users?" 0).
  right. vm_compute. reflexivity.
Defined.

(** C3 at a concrete input: the column of the query does not exist. *)
Lemma execution_failure_skips_answer_witness :
  List.filter DatabaseAgent.is_answer_call
    (calls_of (DatabaseAgent.database_agent
                 (DatabaseAgent.stub_invalid_column
                    "SELECT nmae FROM users LIMIT 10" "unused")
                 DatabaseAgent.configuration "Who are the users?" 0)) = []
  /\ exists text : string,
       result_of (DatabaseAgent.database_agent
                    (DatabaseAgent.stub_invalid_column
                       "SELECT nmae FROM users LIMIT 10" "unused")
                    DatabaseAgent.configuration "Who are the users?" 0)
       = Returns text
       /\ DatabaseAgent.error_answer text DatabaseAgent.UndefinedColumn.
Proof.
  apply (execution_failure_skips_answer
           (DatabaseAgent.stub_invalid_column
              "SELECT nmae FROM users LIMIT 10" "unused")
           DatabaseAgent.configuration "Who are the users?" 0
           "SELECT nmae FROM users LIMIT 10").
  vm_compute. tauto.
Defined.

(** C2 as stated fails: the query selects no row, the tool returns the
    empty string for it, and the answer of [database_agent] has a null
    error with an empty result next to a non-empty query and answer. *)
Lemma database_agent_not_all_or_nothing :
  exists text : string,
    result_of (DatabaseAgent.database_agent
                 (DatabaseAgent.stub "SELECT name FROM users WHERE id < 0"
                    EmptyString "There are no such users.")
                 DatabaseAgent.configuration
                 "Which users have a negative id?" 0)
    = Returns text
    /\ Json.field text "error" = Some Json.Null
    /\ Json.field text "result" = Some (Json.Str EmptyString)
    /\ DatabaseAgent.all_or_nothing text = false.
Proof.
  eexists. split; [vm_compute; reflexivity|].
  vm_compute. repeat split.
Qed.

(** C2, amended, at the stubs of the specification: the model returns the
    query on users, the database returns the two rows. *)
Lemma database_agent_error_or_stage_outputs_witness :
  exists text : string,
    result_of (DatabaseAgent.database_agent
                 (DatabaseAgent.stub "SELECT name FROM users LIMIT 10"
                    "[('Alice',), ('Bob',)]" "The users are Alice and Bob.")
                 DatabaseAgent.configuration "Who are the users?" 0)
    = Returns text
    /\ DatabaseAgent.success_answer text "The users are Alice and Bob."
         "SELECT name FROM users LIMIT 10" "[('Alice',), ('Bob',)]".
Proof.
  eexists.
  apply (proj2 (database_agent_error_or_stage_outputs
                  (DatabaseAgent.stub "SELECT name FROM users LIMIT 10"
                     "[('Alice',), ('Bob',)]" "The users are Alice and Bob.")
                  DatabaseAgent.configuration "Who are the users?" 0)
           tt "CREATE TABLE users (id INTEGER, name TEXT)"
           {[ "query" := "SELECT name FROM users LIMIT 10" ]}
           "SELECT name FROM users LIMIT 10" "[('Alice',), ('Bob',)]"
           {| DatabaseAgent.content := "The users are Alice and Bob." |}
           1 2 3 4 5).
  - vm_compute. reflexivity.
  - vm_compute. reflexivity.
  - reflexivity.
  - reflexivity.
  - reflexivity.
  - vm_compute. reflexivity.
  - reflexivity.
  - reflexivity.
Defined.


(** C9 at the stubs of the specification, whose world counts the calls. *)
Lemma database_agent_twice_witness :
  result_of (DatabaseAgent.database_agent
               (DatabaseAgent.stub "SELECT name FROM users LIMIT 10"
                  "[('Alice',), ('Bob',)]" "The users are Alice and Bob.")
               DatabaseAgent.configuration "Who are the users?" 0)
  = result_of (DatabaseAgent.database_agent
                 (DatabaseAgent.stub "SELECT name FROM users LIMIT 10"
                    "[('Alice',), ('Bob',)]" "The users are Alice and Bob.")
                 DatabaseAgent.configuration "Who are the users?" 5).
Proof.
  apply (database_agent_twice
           (DatabaseAgent.stub "SELECT name FROM users LIMIT 10"
              "[('Alice',), ('Bob',)]" "The users are Alice and Bob.")
           DatabaseAgent.configuration "Who are the users?" 0).
  repeat split; intros; reflexivity.
Defined.

(** X1 at a concrete input: the login is rejected, the session is closed
    all the same. *)
Lemma send_email_session_closed_witness :
  (exists r,
     last (events_of (EmailService.send_email EmailService.rejecting_relay
                        EmailService.credentials "a@example.com" "Hi"
                        "Test" 0))
     = Some (Ev EmailService.SMTP_exit r))
  /\ length (List.filter (fun c => negb (EmailService.is_stage c))
               (calls_of (EmailService.send_email
                            EmailService.rejecting_relay
                            EmailService.credentials "a@example.com" "Hi"
                            "Test" 0)))
     = 1.
Proof.
  apply (proj1 (send_email_session_closed EmailService.rejecting_relay
                  EmailService.credentials "a@example.com" "Hi" "Test" 0)).
  vm_compute. left. reflexivity.
Defined.

(** X3 at a concrete input: the rejected login is the last stage. *)
Lemma send_email_failure_ends_stages_witness :
  last (List.filter EmailService.is_stage
          (calls_of (EmailService.send_email EmailService.rejecting_relay
                       EmailService.credentials "a@example.com" "Hi"
                       "Test" 0)))
  = Some (EmailService.login "relay@example.com" "app-password").
Proof.
  apply (send_email_failure_ends_stages EmailService.rejecting_relay
           EmailService.credentials "a@example.com" "Hi" "Test" 0
           (EmailService.login "relay@example.com" "app-password")
           EmailService.SMTPAuthenticationError).
  - vm_compute. right. right. left. reflexivity.
  - reflexivity.
Defined.

(** X4 at a concrete input: the relay accepts everything. *)
Lemma send_email_no_false_success_witness :
  EmailService.sent_messages
    (calls_of (EmailService.send_email EmailService.accepting_relay
                 EmailService.credentials "a@example.com" "Hi" "Test" 0))
  = [EmailService.build_message
       (EmailService.the (EmailService.credentials !! "SMTP_USER"))
       "a@example.com" "Hi" "Test"].
Proof.
  apply (send_email_no_false_success EmailService.accepting_relay
           EmailService.credentials "a@example.com" "Hi" "Test" 0).
  vm_compute. reflexivity.
Defined.

(** X5 at a concrete input: the message is accepted, QUIT is answered
    with 421, and the tool reports an error. *)
Lemma send_email_closing_failure_witness :
  result_of (EmailService.send_email EmailService.closing_failure_relay
               EmailService.credentials "a@example.com" "Hi" "Test" 0)
  = Returns ("Error sending email: "
               +:+ exc_str EmailService.SMTPResponseException)
  /\ length (EmailService.sent_messages
              (calls_of (EmailService.send_email
                           EmailService.closing_failure_relay
                           EmailService.credentials "a@example.com" "Hi"
                           "Test" 0)))
     = 1.
Proof.
  split; [|vm_compute; reflexivity].
  apply (send_email_closing_failure EmailService.closing_failure_relay
           EmailService.credentials "a@example.com" "Hi" "Test" 0).
  vm_compute. do 4 right. left. reflexivity.
Defined.

(** X7 at a concrete input: the credential of the model is the empty
    string. *)
Lemma database_agent_falsy_configuration_witness :
  DatabaseAgent.database_agent
    (DatabaseAgent.stub "SELECT name FROM users LIMIT 10"
       "[('Alice',), ('Bob',)]" "Alice and Bob.")
    DatabaseAgent.empty_api_key "Who are the users?" 0
  = (Returns
       (Json.dumps
          (DatabaseAgent.error_response
             (ValueError "OPENAI_API_KEY environment variable is required"))),
     0, []).
Proof.
  apply (proj1 (database_agent_falsy_configuration
                  (DatabaseAgent.stub "SELECT name FROM users LIMIT 10"
                     "[('Alice',), ('Bob',)]" "Alice and Bob.")
                  DatabaseAgent.empty_api_key "Who are the users?" 0)).
  right. vm_compute. reflexivity.
Defined.

(** X11 at a concrete input: the rejected query is the last call. *)
Lemma database_agent_failure_is_last_call_witness :
  last (events_of (DatabaseAgent.database_agent
                     (DatabaseAgent.stub_invalid_column
                        "SELECT nmae FROM users LIMIT 10" "unused")
                     DatabaseAgent.configuration "Who are the users?" 0))
  = Some (Ev (DatabaseAgent.execute_query_tool_invoke
                "SELECT nmae FROM users LIMIT 10")
            (Some DatabaseAgent.UndefinedColumn)).
Proof.
  apply (database_agent_failure_is_last_call
           (DatabaseAgent.stub_invalid_column
              "SELECT nmae FROM users LIMIT 10" "unused")
           DatabaseAgent.configuration "Who are the users?" 0).
  vm_compute. do 3 right. left. reflexivity.
Defined.

(** X12 at a concrete input: the model returns an empty dictionary. *)
Lemma database_agent_malformed_output_witness :
  result_of (DatabaseAgent.database_agent DatabaseAgent.stub_malformed_output
               DatabaseAgent.configuration "Who are the users?" 0)
  = Returns (Json.dumps (DatabaseAgent.error_response (KeyError "query"))).
Proof.
  apply (database_agent_malformed_output DatabaseAgent.stub_malformed_output
           DatabaseAgent.configuration "Who are the users?" 0 1 2 3 tt
           "CREATE TABLE users (id INTEGER, name TEXT)" ∅).
  - vm_compute. reflexivity.
  - vm_compute. reflexivity.
  - reflexivity.
  - reflexivity.
  - reflexivity.
  - reflexivity.
Defined.

(** X13 at a concrete input: a statement that deletes is executed as it
    is. *)
Lemma database_agent_executes_model_query_witness :
  In (DatabaseAgent.execute_query_tool_invoke "DELETE FROM users")
    (calls_of (DatabaseAgent.database_agent
                 (DatabaseAgent.stub "DELETE FROM users" EmptyString "Done.")
                 DatabaseAgent.configuration "Remove every user." 0)).
Proof.
  apply (database_agent_executes_model_query
           (DatabaseAgent.stub "DELETE FROM users" EmptyString "Done.")
           DatabaseAgent.configuration "Remove every user." 0 1 2 3 tt
           "CREATE TABLE users (id INTEGER, name TEXT)"
           {[ "query" := "DELETE FROM users" ]} "DELETE FROM users").
  - vm_compute. reflexivity.
  - vm_compute. reflexivity.
  - reflexivity.
  - reflexivity.
  - reflexivity.
  - vm_compute. reflexivity.
Defined.

(** X14 at a concrete input: the model returns an empty dictionary. *)
Lemma database_agent_internal_errors_witness :
  (exists c : DatabaseAgent.call,
     In (Ev c (Some (KeyError "query")))
       (events_of (DatabaseAgent.database_agent
                     DatabaseAgent.stub_malformed_output
                     DatabaseAgent.configuration "Who are the users?" 0)))
  \/ (KeyError "query"
      = ValueError "OPENAI_API_KEY environment variable is required"
      /\ truthy (DatabaseAgent.configuration !! "OPENAI_API_KEY") = false)
  \/ (KeyError "query"
      = ValueError "POSTGRESQL_URL environment variable is required"
      /\ truthy (DatabaseAgent.configuration !! "POSTGRESQL_URL") = false)
  \/ (KeyError "query" = KeyError "query"
      /\ exists (db : DatabaseAgent.SQLDatabase
                        DatabaseAgent.stub_malformed_output)
                (table_info : string) (output : gmap string string)
                (w1 w2 w3 : nat),
           DatabaseAgent.from_uri DatabaseAgent.stub_malformed_output
             (DatabaseAgent.the
                (DatabaseAgent.configuration !! "POSTGRESQL_URL")) 0
           = (Returns db, w1)
           /\ DatabaseAgent.get_table_info
                DatabaseAgent.stub_malformed_output db w1
              = (Returns table_info, w2)
           /\ DatabaseAgent.structured_invoke
                DatabaseAgent.stub_malformed_output
                {| DatabaseAgent.model := "gpt-4o-mini";
                   DatabaseAgent.api_key :=
                     DatabaseAgent.the
                       (DatabaseAgent.configuration !! "OPENAI_API_KEY") |}
                (DatabaseAgent.query_prompt_template
                   (DatabaseAgent.dialect
                      DatabaseAgent.stub_malformed_output db)
                   10 table_info "Who are the users?") w2
              = (Returns output, w3)
           /\ output !! "query" = None).
Proof.
  apply (database_agent_internal_errors DatabaseAgent.stub_malformed_output
           DatabaseAgent.configuration "Who are the users?" 0).
  vm_compute. reflexivity.
Defined.

(** X15 at a concrete input: the three stages on the empty state. *)
Lemma stages_missing_key_witness :
  calls_of (DatabaseAgent.write_query DatabaseAgent.stub_malformed_output tt
              {| DatabaseAgent.model := "gpt-4o-mini";
                 DatabaseAgent.api_key := "sk-test" |} ∅ 0)
  = [DatabaseAgent.db_get_table_info]
  /\ DatabaseAgent.execute_query DatabaseAgent.stub_malformed_output tt ∅ 0
     = (Raises (KeyError "query"), 0, [])
  /\ exists key : string,
       DatabaseAgent.generate_answer DatabaseAgent.stub_malformed_output
         {| DatabaseAgent.model := "gpt-4o-mini";
            DatabaseAgent.api_key := "sk-test" |} ∅ 0
       = (Raises (KeyError key), 0, []).
Proof.
  destruct (stages_missing_key DatabaseAgent.stub_malformed_output tt
              {| DatabaseAgent.model := "gpt-4o-mini";
                 DatabaseAgent.api_key := "sk-test" |} ∅ 0)
    as (Hwrite & Hexecute & Hanswer).
  split; [|split].
  - apply Hwrite. reflexivity.
  - apply Hexecute. reflexivity.
  - destruct Hanswer as (key & Hkey & _); [left; reflexivity|].
    by exists key.
Defined.
